(** * jung-chat: the retrieval-and-grounding route, embedded in Rocq

    A shallow embedding of [src/app/api/chat/route.ts] (the chat API route)
    and of the guard of [handleExplore] in [src/app/page.tsx].

    - JavaScript numbers are binary64 floats: [PrimFloat.float], compared
      with the kernel's own [<?].
    - JavaScript strings are [string]; a character is a code unit below 256.
    - The metadata of an index match is a JavaScript object used as a
      dictionary: [gmap string JsValue].
    - The three external services are functions of the request they
      receive; the route runs in a small monad that logs every call made
      to them and carries a thrown exception. *)

From Stdlib Require Import PrimFloat DecimalString DecimalNat.
From stdpp Require Import base tactics option list strings gmap.

Set Default Proof Using "Type".
Set Warnings "-inexact-float,-register-all".
Local Open Scope string_scope.
Local Open Scope list_scope.
Local Open Scope nat_scope.

(** ** JavaScript values *)

Module Js.

(** The values a metadata field, or a field of a mapped source, can hold at
    run time. Pinecone's [RecordMetadataValue] is
    [string | boolean | number | Array<string>]; [undefined] is what a
    missing property reads as, [null] is what the route writes itself. *)
Inductive JsValue : Type :=
  | JsUndefined
  | JsNull
  | JsBoolean (b : bool)
  | JsNumber (x : float)
  | JsString (s : string)
  | JsStrings (l : list string).

(** A number is falsy when it is [0], [-0] or [NaN]. *)
Definition number_truthy (x : float) : bool :=
  negb (PrimFloat.is_zero x || PrimFloat.is_nan x).

(** ToBoolean. An array is an object, so it is truthy even when empty. *)
Definition truthy (v : JsValue) : bool :=
  match v with
  | JsUndefined | JsNull => false
  | JsBoolean b => b
  | JsNumber x => number_truthy x
  | JsString s => negb (String.eqb s "")
  | JsStrings _ => true
  end.

(** [a || b] *)
Definition or_else (a b : JsValue) : JsValue := if truthy a then a else b.

Definition is_string (v : JsValue) : bool :=
  match v with JsString _ => true | _ => false end.

Definition is_null (v : JsValue) : bool :=
  match v with JsNull => true | _ => false end.

(** [Array.prototype.join] on an array of strings. *)
Fixpoint join (sep : string) (l : list string) : string :=
  match l with
  | [] => ""
  | [x] => x
  | x :: rest => x +:+ sep +:+ join sep rest
  end.

(** Decimal rendering of a non-negative integer, as a template literal
    renders [i + 1] or an HTTP status. *)
Definition string_of_nat (n : nat) : string :=
  NilEmpty.string_of_uint (Nat.to_uint n).

Definition nl : string := String (Ascii.ascii_of_nat 10) "".

(** WhiteSpace and LineTerminator code units below 256: TAB, LF, VT, FF,
    CR, SP and NBSP. *)
Definition isWhiteSpace (c : Ascii.ascii) : bool :=
  let n := Ascii.nat_of_ascii c in
  (Nat.leb 9 n && Nat.leb n 13) || Nat.eqb n 32 || Nat.eqb n 160.

Fixpoint trimStart (s : string) : string :=
  match s with
  | "" => ""
  | String c s' => if isWhiteSpace c then trimStart s' else s
  end.

Definition trimEnd (s : string) : string :=
  String.rev (trimStart (String.rev s)).

(** [String.prototype.trim] *)
Definition trim (s : string) : string := trimEnd (trimStart s).

(** A string that is empty or made of white space only. *)
Fixpoint blank (s : string) : bool :=
  match s with
  | "" => true
  | String c s' => isWhiteSpace c && blank s'
  end.

End Js.
Export Js.

(** ** Data model of the route *)

(** [interface Message] *)
Inductive Role : Type := user | assistant.

Record Message : Type := mkMessage { role : Role; content : string }.

(** [interface Source]. TypeScript declares [work_title: string],
    [chapter: string | null], [text: string], [score: number]; the
    [as string] casts that fill the first three are erased at run time, so
    a field holds whatever value the metadata held. [Source_typed] below is
    the declared interface. *)
Record Source : Type := mkSource {
  work_title : JsValue;
  chapter : JsValue;
  text : JsValue;
  score : float
}.

Definition Source_typed (s : Source) : bool :=
  is_string (work_title s)
  && (is_string (chapter s) || is_null (chapter s))
  && is_string (text s).

(** A match of the index's query response ([ScoredPineconeRecord]):
    [score] and [metadata] are optional. *)
Record ScoredRecord : Type := mkMatch {
  match_id : string;
  match_score : option float;
  match_metadata : option (gmap string JsValue)
}.

(** A metadata value that is a string, or missing: what the [as string]
    casts of [queryPinecone] take for granted. *)
Definition string_or_missing (v : JsValue) : bool :=
  match v with
  | JsUndefined | JsString _ => true
  | _ => false
  end.

(** [match.metadata?.key] *)
Definition metadata_get (m : ScoredRecord) (key : string) : JsValue :=
  match match_metadata m with
  | None => JsUndefined
  | Some md => default JsUndefined (md !! key)
  end.

(** [match.score || 0] *)
Definition score_or_zero (sc : option float) : float :=
  match sc with
  | None => 0%float
  | Some x => if number_truthy x then x else 0%float
  end.

(** The callback of [results.matches?.map] in [queryPinecone]
    (route.ts, lines 62-67). *)
Definition sourceOfMatch (m : ScoredRecord) : Source :=
  {| work_title := or_else (metadata_get m "work_title") (JsString "Unknown");
     chapter := or_else (metadata_get m "chapter") JsNull;
     text := or_else (metadata_get m "text") (JsString "");
     score := score_or_zero (match_score m) |}.

(** [results.matches?.map(...) || []] *)
Definition sourcesOfMatches (matches : option (list ScoredRecord)) : list Source :=
  match matches with
  | Some ms => sourceOfMatch <$> ms
  | None => []
  end.

(** ** Relevance filter (route.ts, line 100) *)

Definition threshold : float := 0.7%float.
Definition maxSources : nat := 3.

(** [s.score > 0.7] *)
Definition relevant (s : Source) : bool := (threshold <? score s)%float.

(** [allSources.filter(s => s.score > 0.7).slice(0, 3)] *)
Definition selectSources (allSources : list Source) : list Source :=
  take maxSources (List.filter relevant allSources).


(** ** External services and the calls made to them *)

(** Body of the request to the embedding endpoint (route.ts, lines 36-40). *)
Record EmbedRequest : Type := mkEmbedRequest {
  embed_model : string;
  embed_text : string;
  embed_input_type : string;
  embed_truncate : string
}.

(** Argument of [index.query], with the index it is sent to
    (route.ts, lines 54-60). The vector is what [generateQueryEmbedding]
    returned: an array of numbers, or [undefined] ([None]). *)
Record QueryRequest : Type := mkQueryRequest {
  query_index : string;
  query_vector : option (list float);
  query_topK : nat;
  query_includeMetadata : bool
}.

(** Argument of [anthropic.messages.create] (route.ts, lines 130-135). *)
Record CreateRequest : Type := mkCreateRequest {
  create_model : string;
  create_max_tokens : nat;
  create_system : string;
  create_messages : list Message
}.

Inductive Call : Type :=
  | CallEmbed (r : EmbedRequest)
  | CallQuery (r : QueryRequest)
  | CallCreate (r : CreateRequest).

(** What [fetch] gives back: a rejection, or a response with its [ok]
    flag, its status, and what [(await response.json()).data[0].values]
    evaluates to: [None] when that expression throws ([json()] rejects,
    or there is no [data[0]]), [Some None] when it is [undefined] (there
    is a [data[0]] without [values]), [Some (Some v)] when it is the
    array [v]. *)
Inductive FetchResult : Type :=
  | FetchRejected
  | FetchResponse (ok : bool) (status : nat)
      (values : option (option (list float))).

Inductive QueryResult : Type :=
  | QueryRejected
  | QueryResponse (matches : option (list ScoredRecord)).

Inductive ContentBlock : Type :=
  | TextBlock (t : string)
  | OtherBlock.

Inductive CreateResult : Type :=
  | CreateRejected
  | CreateResponse (blocks : list ContentBlock).

(** The module-level clients and the environment of the process. *)
Record Services : Type := mkServices {
  embed_api : EmbedRequest → FetchResult;
  index_query : QueryRequest → QueryResult;
  messages_create : CreateRequest → CreateResult;
  PINECONE_INDEX : option string
}.

(** A call fails when its promise is rejected or, for the embedding
    endpoint, when the response is not [ok]. *)
Definition call_failed (svc : Services) (c : Call) : bool :=
  match c with
  | CallEmbed r =>
      match embed_api svc r with
      | FetchRejected => true
      | FetchResponse ok _ _ => negb ok
      end
  | CallQuery r =>
      match index_query svc r with
      | QueryRejected => true
      | QueryResponse _ => false
      end
  | CallCreate r =>
      match messages_create svc r with
      | CreateRejected => true
      | CreateResponse _ => false
      end
  end.

(** ** The effect monad: a log of external calls, and exceptions *)

Inductive Exception : Type :=
  | Error (message : string)
  | TypeError
  | SyntaxError
  | PineconeError
  | APIError.

Inductive Outcome (A : Type) : Type :=
  | Return (a : A)
  | Throw (e : Exception).
Arguments Return {A} a.
Arguments Throw {A} e.

Definition Eff (A : Type) : Type := list Call * Outcome A.

Definition ret {A} (a : A) : Eff A := ([], Return a).
Definition throw {A} (e : Exception) : Eff A := ([], Throw e).
Definition emit (c : Call) : Eff unit := ([c], Return tt).

Definition bind {A B} (m : Eff A) (f : A → Eff B) : Eff B :=
  match m with
  | (t1, Return a) => let '(t2, r) := f a in (t1 ++ t2, r)
  | (t1, Throw e) => (t1, Throw e)
  end.

(** [try { m } catch (error) { h error }] *)
Definition try_catch {A} (m : Eff A) (h : Exception → Eff A) : Eff A :=
  match m with
  | (t1, Throw e) => let '(t2, r) := h e in (t1 ++ t2, r)
  | (t1, Return a) => (t1, Return a)
  end.

Notation "x <- m ;; k" := (bind m (λ x, k))
  (at level 100, m at next level, right associativity, only parsing).
Notation "m ;;; k" := (bind m (λ _, k))
  (at level 100, right associativity, only parsing).

Definition calls {A} (m : Eff A) : list Call := m.1.
Definition outcome {A} (m : Eff A) : Outcome A := m.2.

(** ** Responses of the route *)

Inductive Json : Type :=
  | JValue (v : JsValue)
  | JArray (items : list Json)
  | JObject (fields : list (string * Json)).

(** [NextResponse.json(body, { status })] *)
Record NextResponse : Type := mkResponse {
  status : nat;
  body : Json
}.

(** Property read on a response body. *)
Fixpoint assoc (key : string) (fields : list (string * Json)) : option Json :=
  match fields with
  | [] => None
  | (k, v) :: rest => if String.eqb k key then Some v else assoc key rest
  end.

Definition field (key : string) (j : Json) : option Json :=
  match j with
  | JObject fields => assoc key fields
  | _ => None
  end.

Definition json_of_source (s : Source) : Json :=
  JObject [("work_title", JValue (work_title s));
           ("chapter", JValue (chapter s));
           ("text", JValue (text s));
           ("score", JValue (JsNumber (score s)))].

(** A body of the [POST] request that holds a conversation and a query. *)
Record ChatRequest : Type := mkChatRequest {
  messages : list Message;
  query : string
}.

(** What the route can be sent; it validates nothing.
    - [Unreadable]: [const { messages, query } = await request.json()]
      throws (the body is not JSON, or is [null]);
    - [NoMessages query]: the body is read, but [messages.map(...)] throws
      ([messages] is missing or is not an array of messages);
    - [Chat req]: the body holds an array of messages and a query.
    The query is the string that the template literal of line 38 makes of
    the [query] property. *)
Inductive RequestBody : Type :=
  | Unreadable
  | NoMessages (query : string)
  | Chat (req : ChatRequest).

(** [query] after line 94, when the body could be read. *)
Definition queryOf (body : RequestBody) : option string :=
  match body with
  | Unreadable => None
  | NoMessages query => Some query
  | Chat req => Some (query req)
  end.

(** ** The route (route.ts) *)

(** [fetch] on the embedding endpoint: the call is logged, a rejected
    promise throws. *)
Definition fetch_embed (svc : Services) (r : EmbedRequest)
  : Eff (bool * nat * option (option (list float))) :=
  emit (CallEmbed r) ;;;
  match embed_api svc r with
  | FetchRejected => throw TypeError
  | FetchResponse ok st values => ret (ok, st, values)
  end.

(** The JSON body posted to the embedding endpoint (route.ts, lines 36-40). *)
Definition embedRequest (query : string) : EmbedRequest :=
  {| embed_model := "multilingual-e5-large";
     embed_text := "query: " +:+ query;
     embed_input_type := "query";
     embed_truncate := "END" |}.

(** [generateQueryEmbedding] (route.ts, lines 28-49); it returns
    [data.data[0].values] as it is, [undefined] included. *)
Definition generateQueryEmbedding (svc : Services) (query : string)
  : Eff (option (list float)) :=
  response <- fetch_embed svc (embedRequest query) ;;
  let '(ok, st, values) := response in
  if negb ok then
    throw (Error ("Embedding API error: " +:+ string_of_nat st))
  else
    match values with
    | None => throw TypeError
    | Some v => ret v
    end.

(** [process.env.PINECONE_INDEX || "jung-works"] *)
Definition indexName (svc : Services) : string :=
  match PINECONE_INDEX svc with
  | Some name => if String.eqb name "" then "jung-works" else name
  | None => "jung-works"
  end.

(** [index.query]: the call is logged, a rejected promise throws. *)
Definition run_query (svc : Services) (r : QueryRequest)
  : Eff (option (list ScoredRecord)) :=
  emit (CallQuery r) ;;;
  match index_query svc r with
  | QueryRejected => throw PineconeError
  | QueryResponse matches => ret matches
  end.

(** The argument of [index.query] (route.ts, lines 54-60). *)
Definition queryRequest (svc : Services) (embedding : option (list float))
  (topK : nat) : QueryRequest :=
  {| query_index := indexName svc;
     query_vector := embedding;
     query_topK := topK;
     query_includeMetadata := true |}.

(** [queryPinecone] (route.ts, lines 52-68); the default [topK = 5] is not
    used by the route, which passes 6. *)
Definition queryPinecone (svc : Services) (query : string) (topK : nat)
  : Eff (list Source) :=
  embedding <- generateQueryEmbedding svc query ;;
  results <- run_query svc (queryRequest svc embedding topK) ;;
  ret (sourcesOfMatches results).

(** [anthropic.messages.create]: the call is logged, a rejected promise
    throws. *)
Definition run_create (svc : Services) (r : CreateRequest)
  : Eff (list ContentBlock) :=
  emit (CallCreate r) ;;;
  match messages_create svc r with
  | CreateRejected => throw APIError
  | CreateResponse blocks => ret blocks
  end.

(** [response.content[0].type === "text" ? response.content[0].text : ""];
    reading [.type] of a missing first block throws. *)
Definition extractText (blocks : list ContentBlock) : Eff string :=
  match blocks with
  | [] => throw TypeError
  | TextBlock t :: _ => ret t
  | OtherBlock :: _ => ret ""
  end.

Definition rules : string :=
  join nl
    ["You're a knowledgeable guide to Jung's psychology. Be concise and conversational.";
     "";
     "Rules:";
     "- Keep responses to 2-4 sentences max";
     "- Be direct, not academic";
     "- Only cite [1], [2] etc. when directly quoting Jung's words";
     "- Don't cite for general concepts - only for specific quotes";
     "- If asked to elaborate, you can go deeper";
     "";
     ""].

Definition noContextInstruction : string :=
  "No highly relevant sources found - answer from general knowledge of Jung.".

Definition genericError : NextResponse :=
  {| status := 500;
     body := JObject [("error", JValue (JsString "Failed to process request"))] |}.

Section Route.

(** [Number::toString], which a template literal applies to a number; it is
    a builtin of the language, taken as given. *)
Variable Number_toString : float → string.

(** What a template literal [${v}] inserts for a value. *)
Definition ToString (v : JsValue) : string :=
  match v with
  | JsUndefined => "undefined"
  | JsNull => "null"
  | JsBoolean true => "true"
  | JsBoolean false => "false"
  | JsNumber x => Number_toString x
  | JsString s => s
  | JsStrings l => join "," l
  end.

(** The callback of [formatSourcesForPrompt] (route.ts, lines 73-78). *)
Definition promptBlock (i : nat) (source : Source) : string :=
  let citation :=
    if truthy (chapter source)
    then "[" +:+ string_of_nat (i + 1) +:+ "] " +:+ ToString (work_title source)
         +:+ ", " +:+ ToString (chapter source)
    else "[" +:+ string_of_nat (i + 1) +:+ "] " +:+ ToString (work_title source) in
  citation +:+ nl +:+ ToString (text source).

Definition promptBlocks (sources : list Source) : list string :=
  imap promptBlock sources.

Definition blockSeparator : string := nl +:+ nl +:+ "---" +:+ nl +:+ nl.

(** [formatSourcesForPrompt] (route.ts, lines 71-80) *)
Definition formatSourcesForPrompt (sources : list Source) : string :=
  join blockSeparator (promptBlocks sources).

(** The callback of [formatSourcesForResponse] (route.ts, lines 85-88). *)
Definition responseLine (i : nat) (source : Source) : string :=
  let chapter := if truthy (chapter source)
                 then ", " +:+ ToString (chapter source) else "" in
  "[" +:+ string_of_nat (i + 1) +:+ "] " +:+ ToString (work_title source)
  +:+ chapter.

Definition responseLines (sources : list Source) : list string :=
  imap responseLine sources.

(** [formatSourcesForResponse] (route.ts, lines 83-90) *)
Definition formatSourcesForResponse (sources : list Source) : string :=
  join nl (responseLines sources).

(** The citation header as the specification words it,
    [[n] <work_title>[, <chapter>]]; the two formatters are compared with
    it below. *)
Definition citationHeader (n : nat) (source : Source) : string :=
  "[" +:+ string_of_nat n +:+ "] " +:+ ToString (work_title source)
  +:+ (if truthy (chapter source)
       then ", " +:+ ToString (chapter source) else "").

(** The system prompt (route.ts, lines 106-115). *)
Definition systemPrompt (sources : list Source) : string :=
  let context := formatSourcesForPrompt sources in
  rules +:+ (if Nat.ltb 0 (length sources)
             then "Sources:" +:+ nl +:+ context
             else noContextInstruction).

(** The conversation sent to the model (route.ts, lines 118-127). *)
Definition claudeMessages (req : ChatRequest) : list Message :=
  ((λ msg, {| role := role msg; content := content msg |}) <$> messages req)
  ++ [{| role := user; content := query req |}].

Definition createRequest (req : ChatRequest) (sources : list Source)
  : CreateRequest :=
  {| create_model := "claude-sonnet-4-20250514";
     create_max_tokens := 550;
     create_system := systemPrompt sources;
     create_messages := claudeMessages req |}.

Definition successResponse (assistantMessage : string) (sources : list Source)
  : NextResponse :=
  {| status := 200;
     body := JObject
       [("message", JValue (JsString assistantMessage));
        ("sources", JValue (JsString (formatSourcesForResponse sources)));
        ("rawSources", JArray (json_of_source <$> sources))] |}.

(** [const { messages, query } = await request.json()] (line 94), as far
    as the query goes. *)
Definition readQuery (body : RequestBody) : Eff string :=
  match queryOf body with
  | Some query => ret query
  | None => throw SyntaxError
  end.

(** [messages.map(...)] (lines 118-121): it throws unless [messages] is an
    array of messages. *)
Definition readChat (body : RequestBody) : Eff ChatRequest :=
  match body with
  | Chat req => ret req
  | Unreadable | NoMessages _ => throw TypeError
  end.

(** [POST] (route.ts, lines 92-156) *)
Definition POST (svc : Services) (body : RequestBody) : Eff NextResponse :=
  try_catch
    (query <- readQuery body ;;
     allSources <- queryPinecone svc query 6 ;;
     let sources := selectSources allSources in
     req <- readChat body ;;
     response <- run_create svc (createRequest req sources) ;;
     assistantMessage <- extractText response ;;
     ret (successResponse assistantMessage sources))
    (λ error, ret genericError).

(** The guard and the request of [handleExplore] (page.tsx, lines 135-146):
    [if (!query.trim() || isLoading) return;], then the [fetch] of
    ["/api/chat"] with [{ messages: [], query }], which runs [POST]. *)
Definition handleExplore (svc : Services) (query : string) (isLoading : bool)
  : Eff (option NextResponse) :=
  if negb (truthy (JsString (trim query))) || isLoading then ret None
  else
    response <- POST svc (Chat {| messages := []; query := query |}) ;;
    ret (Some response).

End Route.

(** ** Concrete inputs used by the examples below *)

Module Sample.

Definition result (title : string) (x : float) : Source :=
  {| work_title := JsString title; chapter := JsNull;
     text := JsString ("passage from " +:+ title); score := x |}.

(** Scenario A: six results scored 0.9, 0.82, 0.75, 0.71, 0.6, 0.4. *)
Definition six : list Source :=
  [result "Aion" 0.9; result "Psychological Types" 0.82;
   result "Symbols of Transformation" 0.75; result "Mysterium Coniunctionis" 0.71;
   result "Psychology and Alchemy" 0.6; result "The Red Book" 0.4]%float.

(** A match whose [work_title] metadata is a number. *)
Definition numbered : ScoredRecord :=
  {| match_id := "vol9-0001"; match_score := Some 0.9%float;
     match_metadata := Some {[ "work_title" := JsNumber 9%float ]} |}.

(** A match with string metadata, an empty chapter and no score. *)
Definition unscored : ScoredRecord :=
  {| match_id := "vol9-0002"; match_score := None;
     match_metadata := Some (<["chapter" := JsString ""]>
                             {[ "text" := JsString "The shadow is a moral problem." ]}) |}.

(** An instance of [Number::toString] for the examples, none of which
    renders a number other than 9. *)
Definition Number_toString (x : float) : string :=
  if (x =? 9)%float then "9" else "NaN".

Definition vector : option (list float) := Some [0.25; -0.5; 0.125]%float.

Definition scored (title : string) (x : float) : ScoredRecord :=
  {| match_id := title; match_score := Some x;
     match_metadata := Some (<["work_title" := JsString title]>
                             {[ "text" := JsString ("passage from " +:+ title) ]}) |}.

(** All three services answer; the index returns the six matches of
    scenario A. *)
Definition healthy : Services :=
  {| embed_api := λ _, FetchResponse true 200 (Some vector);
     index_query := λ _, QueryResponse (Some
       [scored "Aion" 0.9; scored "Psychological Types" 0.82;
        scored "Symbols of Transformation" 0.75;
        scored "Mysterium Coniunctionis" 0.71;
        scored "Psychology and Alchemy" 0.6; scored "The Red Book" 0.4]%float);
     messages_create := λ _, CreateResponse [TextBlock "The shadow is what we hide."];
     PINECONE_INDEX := None |}.



(** Scenario C: the embedding service answers 503. *)
Definition embedding_down : Services :=
  {| embed_api := λ _, FetchResponse false 503 None;
     index_query := index_query healthy;
     messages_create := messages_create healthy;
     PINECONE_INDEX := None |}.

(** The generation service rejects the call. *)
Definition generation_down : Services :=
  {| embed_api := embed_api healthy;
     index_query := index_query healthy;
     messages_create := λ _, CreateRejected;
     PINECONE_INDEX := None |}.

Definition question : ChatRequest :=
  {| messages := []; query := "What is the shadow?" |}.

(** A request whose query is three spaces. *)
Definition spaces : ChatRequest :=
  {| messages := []; query := "   " |}.



(** The embedding response is [ok], its [data[0]] has no [values]. *)
Definition no_values : Services :=
  {| embed_api := λ _, FetchResponse true 200 (Some None);
     index_query := λ _, QueryRejected;
     messages_create := messages_create healthy;
     PINECONE_INDEX := None |}.

End Sample.

(** ** The page (page.tsx) *)

Module Page.

Import Stdlib.Strings.Ascii.

(** *** Helpers on strings *)

(** [\d] *)
Definition isDigit (c : Ascii.ascii) : bool :=
  let n := Ascii.nat_of_ascii c in Nat.leb 48 n && Nat.leb n 57.

(** Upper case of an ASCII letter, other code units unchanged. Under the
    [i] flag a pattern letter matches the code units with the same upper
    case, and no code unit above 127 folds to an ASCII letter. *)
Definition upperAscii (c : Ascii.ascii) : Ascii.ascii :=
  let n := Ascii.nat_of_ascii c in
  if Nat.leb 97 n && Nat.leb n 122 then Ascii.ascii_of_nat (n - 32) else c.

(** [String.prototype.toLowerCase] on code units below 256: the letters
    A-Z and the Latin-1 capitals (192-222, the multiplication sign 215
    apart) move up by 32. *)
Definition lowerChar (c : Ascii.ascii) : Ascii.ascii :=
  let n := Ascii.nat_of_ascii c in
  if (Nat.leb 65 n && Nat.leb n 90)
     || (Nat.leb 192 n && Nat.leb n 222 && negb (Nat.eqb n 215))
  then Ascii.ascii_of_nat (n + 32) else c.

Fixpoint toLowerCase (s : string) : string :=
  match s with
  | "" => ""
  | String c s' => String (lowerChar c) (toLowerCase s')
  end.

(** Whether [s] starts with [p]. *)
Fixpoint startsWith (p s : string) : bool :=
  match p, s with
  | "", _ => true
  | String a p', String c s' => Ascii.eqb a c && startsWith p' s'
  | String _ _, "" => false
  end.

(** [s.includes(sub)] *)
Fixpoint includes (s sub : string) : bool :=
  startsWith sub s
  || match s with
     | "" => false
     | String _ s' => includes s' sub
     end.

(** [.replace(/\s+/g, ' ')]: every maximal run of white space becomes one
    space; [inRun] tells that the previous code unit was white space. *)
Fixpoint collapseFrom (inRun : bool) (s : string) : string :=
  match s with
  | "" => ""
  | String c s' =>
      if isWhiteSpace c
      then (if inRun then collapseFrom true s'
            else String " "%char (collapseFrom true s'))
      else String c (collapseFrom false s')
  end.

Definition collapseWhiteSpace (s : string) : string := collapseFrom false s.

(** A literal of a pattern matched at the start of [s] under the [i] flag:
    what follows it in [s]. *)
Fixpoint matchLiteral (lit s : string) : option string :=
  match lit, s with
  | "", _ => Some s
  | String a lit', String c s' =>
      if Ascii.eqb (upperAscii a) (upperAscii c) then matchLiteral lit' s'
      else None
  | String _ _, "" => None
  end.

(** An alternative of a group: a literal, or a literal followed by an
    optional dot ([Ch\.?], greedy). *)
Inductive Alternative : Type :=
  | Literal (lit : string)
  | LiteralDot (lit : string).

Definition matchAlternative (a : Alternative) (s : string) : option string :=
  match a with
  | Literal lit => matchLiteral lit s
  | LiteralDot lit =>
      match matchLiteral lit s with
      | Some (String "."%char rest) => Some rest
      | other => other
      end
  end.

(** [/^(a1|a2|...)\s*/i] on [s]: the alternatives are tried in order, the
    white space after the first that matches is consumed; [None] when no
    alternative matches, else what follows the match. *)
Fixpoint matchPrefix (alts : list Alternative) (s : string) : option string :=
  match alts with
  | [] => None
  | a :: alts' =>
      match matchAlternative a s with
      | Some rest => Some (trimStart rest)
      | None => matchPrefix alts' s
      end
  end.

(** [s.replace(/^(a1|a2|...)\s*/i, by)] *)
Definition replacePrefix (alts : list Alternative) (by_ : string) (s : string)
  : string :=
  match matchPrefix alts s with
  | Some rest => by_ +:+ rest
  | None => s
  end.

(** [/^\d+$/.test(s)] *)
Fixpoint allDigits (s : string) : bool :=
  match s with
  | "" => true
  | String c s' => isDigit c && allDigits s'
  end.

Definition isNumber (s : string) : bool :=
  negb (String.eqb s "") && allDigits s.

(** A string whose only white space is the space character. *)
Fixpoint plainSpaces (s : string) : bool :=
  match s with
  | "" => true
  | String c s' =>
      (negb (isWhiteSpace c) || Ascii.eqb c " "%char) && plainSpaces s'
  end.

(** *** [formatChapter] (page.tsx, lines 86-108) *)

Definition chapterPrefixes : list Alternative :=
  [Literal "Chapter"; Literal "CHAPTER"; LiteralDot "Ch";
   Literal "Section"; Literal "SECTION"].

Definition partPrefixes : list Alternative := [Literal "Part"; Literal "PART"].

(** [chapter.trim().replace(/\s+/g, ' ')], then the two replacements of
    prefixes (lines 90-95). *)
Definition cleanChapter (chapter : string) : string :=
  replacePrefix partPrefixes "Part "
    (replacePrefix chapterPrefixes "Ch. "
       (collapseWhiteSpace (trim chapter))).

(** [if (/^\d+$/.test(formatted)) formatted = `Ch. ${formatted}`] *)
Definition numberChapter (formatted : string) : string :=
  if isNumber formatted then "Ch. " +:+ formatted else formatted.

(** [if (formatted.length > 60)
       formatted = formatted.substring(0, 57) + '...'] *)
Definition truncateChapter (formatted : string) : string :=
  if Nat.ltb 60 (String.length formatted)
  then String.substring 0 57 formatted +:+ "..."
  else formatted.

Definition formatChapter (chapter : option string) : option string :=
  match chapter with
  | None => None
  | Some chapter =>
      if String.eqb chapter "" then None
      else Some (truncateChapter (numberChapter (cleanChapter chapter)))
  end.

(** *** [extractRelatedConcepts] (page.tsx, lines 110-126) *)

Definition concepts : list string :=
  ["shadow"; "anima"; "animus"; "self"; "ego"; "persona"; "archetype";
   "unconscious"; "collective unconscious"; "individuation"; "dream";
   "symbol"; "mandala"; "projection"; "complex"; "libido"; "psyche";
   "introversion"; "extraversion"; "synchronicity"; "alchemy";
   "transformation"].

(** [[...new Set(l)]]: the first occurrence of each element, in order. *)
Fixpoint dedupeFrom (seen l : list string) : list string :=
  match l with
  | [] => []
  | x :: l' =>
      if bool_decide (x ∈ seen) then dedupeFrom seen l'
      else x :: dedupeFrom (x :: seen) l'
  end.

(** [c.charAt(0).toUpperCase() + c.slice(1)]; the concepts are ASCII, on
    which [toUpperCase] is [upperAscii]. *)
Definition capitalize (c : string) : string :=
  match c with
  | "" => ""
  | String a rest => String (upperAscii a) rest
  end.

(** [c => text.toLowerCase().includes(c) && c.length > 4] *)
Definition mentioned (text c : string) : bool :=
  includes (toLowerCase text) c && Nat.ltb 4 (String.length c).

Section Client.

(** [.sort(() => Math.random() - 0.5)]: the order it leaves depends on the
    random draws and on the engine; it is taken as given. *)
Variable shuffle : list string → list string.

Definition extractRelatedConcepts (text : string) : list string :=
  let found := List.filter (mentioned text) concepts in
  capitalize <$> take 4 (shuffle (dedupeFrom [] found)).

(** *** [handleExplore] (page.tsx, lines 135-166) *)

(** [interface Exploration]; [sources] holds [data.rawSources] as it came. *)
Record Exploration : Type := mkExploration {
  id : string;
  asked : string;
  response : string;
  sources : Json;
  relatedConcepts : list string
}.

(** The state of [Home]. *)
Record State : Type := mkState {
  explorations : list Exploration;
  input : string;
  isLoading : bool;
  expandedId : option string
}.

(** [response.ok] *)
Definition responseOk (r : NextResponse) : bool :=
  Nat.leb 200 (status r) && Nat.leb (status r) 299.

Definition jsonTruthy (j : Json) : bool :=
  match j with
  | JValue v => truthy v
  | JArray _ | JObject _ => true
  end.

(** [data.rawSources || []] *)
Definition rawSourcesOf (data : Json) : Json :=
  match field "rawSources" data with
  | Some j => if jsonTruthy j then j else JArray []
  | None => JArray []
  end.

Variable Number_toString : float → string.

(** [Date.now()] at the time the answer arrives. *)
Variable now : N.

(** What the [try] block does to the state once the route has answered:
    [None] when it throws (the response is not [ok], or [data.message] is
    not a string, on which [toLowerCase] throws). *)
Definition received (query : string) (r : NextResponse) (st : State)
  : option State :=
  if responseOk r then
    match field "message" (body r) with
    | Some (JValue (JsString message)) =>
        let newExploration :=
          {| id := NilEmpty.string_of_uint (N.to_uint now);
             asked := query;
             response := message;
             sources := rawSourcesOf (body r);
             relatedConcepts := extractRelatedConcepts message |} in
        Some {| explorations := newExploration :: explorations st;
                input := input st;
                isLoading := isLoading st;
                expandedId := Some (id newExploration) |}
    | _ => None
    end
  else None.

(** [handleExplore]: the calls made to the services and the state once the
    handler has run to its end. *)
Definition handleExplore (svc : Services) (query : string) (st : State)
  : list Call * State :=
  if negb (truthy (JsString (trim query))) || isLoading st then ([], st)
  else
    let st1 := {| explorations := explorations st; input := "";
                  isLoading := true; expandedId := expandedId st |} in
    let '(log, answer) :=
      POST Number_toString svc (Chat {| messages := []; query := query |}) in
    let st2 :=
      match answer with
      | Return r => default st1 (received query r st1)
      | Throw _ => st1
      end in
    (log, {| explorations := explorations st2; input := input st2;
             isLoading := false; expandedId := expandedId st2 |}).

End Client.

End Page.

(** Inputs of the examples about the page. *)
Module SamplePage.

(** A draw of the shuffle: the list reversed. *)
Definition shuffle (l : list string) : list string := reverse l.

Definition fresh : Page.State :=
  {| Page.explorations := []; Page.input := "What is the shadow?";
     Page.isLoading := false; Page.expandedId := None |}.

(** The six matches of scenario A, as the index of [Sample.healthy]
    returns them. *)
Definition matches : list ScoredRecord :=
  [Sample.scored "Aion" 0.9; Sample.scored "Psychological Types" 0.82;
   Sample.scored "Symbols of Transformation" 0.75;
   Sample.scored "Mysterium Coniunctionis" 0.71;
   Sample.scored "Psychology and Alchemy" 0.6;
   Sample.scored "The Red Book" 0.4]%float.

(** The generator answers with a tool block first. *)
Definition tool_first : Services :=
  {| embed_api := embed_api Sample.healthy;
     index_query := index_query Sample.healthy;
     messages_create := λ _, CreateResponse [OtherBlock; TextBlock "late"];
     PINECONE_INDEX := None |}.

End SamplePage.


(** * Properties *)

(** ** The relevance filter *)

Lemma filter_sublist {A} (p : A → bool) (l : list A) :
  List.filter p l `sublist_of` l.
Proof.
  induction l as [|x l IH]; simpl; [constructor|].
  destruct (p x); by constructor.
Qed.

Lemma selectSources_sublist (results : list Source) :
  selectSources results `sublist_of` results.
Proof.
  unfold selectSources. etrans; [apply sublist_take | apply filter_sublist].
Qed.

Lemma selectSources_length (results : list Source) :
  length (selectSources results) ≤ 3.
Proof.
  unfold selectSources. rewrite length_take. unfold maxSources. lia.
Qed.

Lemma selectSources_relevant (results : list Source) (s : Source) :
  s ∈ selectSources results → relevant s = true.
Proof.
  unfold selectSources. intros Hs.
  apply (subseteq_take maxSources) in Hs.
  apply list_elem_of_In, filter_In in Hs. tauto.
Qed.

Lemma threshold_not_relevant (s : Source) :
  score s = threshold → relevant s = false.
Proof. unfold relevant. intros ->. reflexivity. Qed.

(** A sublist embeds into the list by a strictly increasing map of
    positions. *)
Lemma sublist_positions {A} (l1 l2 : list A) :
  l1 `sublist_of` l2 →
  ∃ pos : nat → nat,
    (∀ j k, j < k → pos j < pos k) ∧
    (∀ j x, l1 !! j = Some x → l2 !! pos j = Some x).
Proof.
  induction 1 as [|x l1 l2 _ [pos [Hmono Hpos]]|x l1 l2 _ [pos [Hmono Hpos]]].
  - exists id. split; [done|]. intros j x. by rewrite lookup_nil.
  - exists (λ j, match j with 0 => 0 | S j' => S (pos j') end). split.
    + intros [|j] [|k] Hjk; try lia.
      assert (j < k) as Hlt by lia. apply Hmono in Hlt. lia.
    + intros [|j] y; simpl; [done|]. apply Hpos.
  - exists (λ j, S (pos j)). split.
    + intros j k Hjk. apply Hmono in Hjk. lia.
    + intros j y Hj. simpl. by apply Hpos.
Qed.

(** C1. For every list of search results, the relevance filter (threshold
    0.7, at most 3) returns at most 3 results and no more than it was
    given; every result it keeps has a score strictly above 0.7, so a
    score of exactly 0.7 is never kept; and on results scored 0.9, 0.82,
    0.75, 0.71, 0.6, 0.4 it keeps exactly the first three, scored 0.9,
    0.82, 0.75. *)
Theorem selectSources_bounded_above_threshold (results : list Source) :
  length (selectSources results) ≤ 3
  ∧ length (selectSources results) ≤ length results
  ∧ (∀ s, s ∈ selectSources results →
       (0.7 <? score s)%float = true ∧ score s ≠ 0.7%float)
  ∧ (score <$> results = [0.9; 0.82; 0.75; 0.71; 0.6; 0.4]%float →
       selectSources results = take 3 results
       ∧ score <$> selectSources results = [0.9; 0.82; 0.75]%float).
Proof.
  split; [|split; [|split]].
  - apply selectSources_length.
  - apply sublist_length, selectSources_sublist.
  - intros s Hs. apply selectSources_relevant in Hs. split; [exact Hs|].
    intros Heq. apply threshold_not_relevant in Heq. congruence.
  - intros Hscores.
    assert (selectSources results = take 3 results) as Hkeep.
    { destruct results as [|s1 [|s2 [|s3 [|s4 [|s5 [|s6 [|s7 rest]]]]]]];
        try discriminate.
      injection Hscores as H1 H2 H3 H4 H5 H6.
      unfold selectSources. cbn [List.filter]. unfold relevant.
      rewrite H1, H2, H3, H4, H5, H6. reflexivity. }
    split; [exact Hkeep|].
    rewrite Hkeep, fmap_take, Hscores. reflexivity.
Qed.

Lemma selectSources_scenario_A :
  selectSources Sample.six = take 3 Sample.six
  ∧ score <$> selectSources Sample.six = [0.9; 0.82; 0.75]%float.
Proof.
  apply (selectSources_bounded_above_threshold Sample.six). reflexivity.
Defined.

(** C6. The relevance filter preserves order: the results it keeps sit in
    the input at strictly increasing positions, so any two kept results
    appear in the output in the order they had in the input. *)
Theorem selectSources_order_preserving (results : list Source) :
  ∃ pos : nat → nat,
    (∀ j s, selectSources results !! j = Some s → results !! pos j = Some s)
    ∧ (∀ j k, j < k → k < length (selectSources results) → pos j < pos k).
Proof.
  destruct (sublist_positions _ _ (selectSources_sublist results))
    as [pos [Hmono Hpos]].
  exists pos. split; [exact Hpos|]. intros j k Hjk _. by apply Hmono.
Qed.

Lemma selectSources_order_six :
  ∃ pos : nat → nat,
    Sample.six !! pos 0 = Some (Sample.result "Aion" 0.9%float)
    ∧ Sample.six !! pos 2
      = Some (Sample.result "Symbols of Transformation" 0.75%float)
    ∧ pos 0 < pos 2.
Proof.
  destruct (selectSources_order_preserving Sample.six) as [pos [Hpos Hmono]].
  exists pos. split; [|split].
  - apply Hpos. reflexivity.
  - apply Hpos. reflexivity.
  - apply Hmono; [lia|]. vm_compute. lia.
Defined.

(** ** The boundary with the vector index *)

Lemma or_else_string (v : JsValue) (d : string) :
  string_or_missing v = true → is_string (or_else v (JsString d)) = true.
Proof. destruct v; try discriminate; unfold or_else; simpl; [done|]. by destruct (negb _). Qed.

Lemma or_else_null (v : JsValue) :
  string_or_missing v = true →
  is_string (or_else v JsNull) || is_null (or_else v JsNull) = true.
Proof. destruct v; try discriminate; unfold or_else; simpl; [done|]. by destruct (negb _). Qed.

Lemma unscored_not_relevant (m : ScoredRecord) :
  match_score m = None → relevant (sourceOfMatch m) = false.
Proof. unfold relevant, sourceOfMatch. simpl. intros ->. reflexivity. Qed.

(** C10, as the code has it. A search result built from a match has fully
    defaulted fields whenever the metadata values stored under
    [work_title], [chapter] and [text] are strings or missing: then
    [work_title] and [text] are strings and [chapter] is a string or null.
    A missing title becomes "Unknown", a missing text the empty string, a
    missing or empty chapter null (the chapter is never the empty string),
    a missing score 0; and a match with no score never passes the
    relevance filter. *)
Theorem sourceOfMatch_defaults (m : ScoredRecord) :
  (string_or_missing (metadata_get m "work_title") = true →
   string_or_missing (metadata_get m "chapter") = true →
   string_or_missing (metadata_get m "text") = true →
   Source_typed (sourceOfMatch m) = true)
  ∧ (metadata_get m "work_title" = JsUndefined →
     work_title (sourceOfMatch m) = JsString "Unknown")
  ∧ (metadata_get m "text" = JsUndefined →
     text (sourceOfMatch m) = JsString "")
  ∧ (metadata_get m "chapter" = JsUndefined
     ∨ metadata_get m "chapter" = JsString "" →
     chapter (sourceOfMatch m) = JsNull)
  ∧ chapter (sourceOfMatch m) ≠ JsString ""
  ∧ (match_score m = None → score (sourceOfMatch m) = 0%float)
  ∧ (match_score m = None →
     ∀ results, sourceOfMatch m ∉ selectSources results).
Proof.
  repeat apply conj.
  - intros Ht Hc Hx. unfold Source_typed, sourceOfMatch. simpl.
    rewrite (or_else_string _ _ Ht), (or_else_string _ _ Hx),
      (or_else_null _ Hc). reflexivity.
  - unfold sourceOfMatch. simpl. by intros ->.
  - unfold sourceOfMatch. simpl. by intros ->.
  - unfold sourceOfMatch. simpl. by intros [-> | ->].
  - unfold sourceOfMatch, or_else. simpl.
    destruct (truthy (metadata_get m "chapter")) eqn:Htruthy; [|done].
    intros Heq. rewrite Heq in Htruthy. discriminate.
  - unfold sourceOfMatch. simpl. by intros ->.
  - intros Hnone results Hin. apply selectSources_relevant in Hin.
    rewrite (unscored_not_relevant _ Hnone) in Hin. discriminate.
Qed.

Lemma sourceOfMatch_defaults_unscored :
  Source_typed (sourceOfMatch Sample.unscored) = true
  ∧ work_title (sourceOfMatch Sample.unscored) = JsString "Unknown"
  ∧ chapter (sourceOfMatch Sample.unscored) = JsNull
  ∧ score (sourceOfMatch Sample.unscored) = 0%float
  ∧ sourceOfMatch Sample.unscored ∉ selectSources [sourceOfMatch Sample.unscored].
Proof.
  pose proof (sourceOfMatch_defaults Sample.unscored)
    as (Htyped & Htitle & _ & Hchapter & _ & Hscore & Hfilter).
  split; [|split; [|split; [|split]]].
  - apply Htyped; vm_compute; reflexivity.
  - apply Htitle. vm_compute. reflexivity.
  - apply Hchapter. right. vm_compute. reflexivity.
  - apply Hscore. reflexivity.
  - apply Hfilter. reflexivity.
Defined.

(** The claim C10 as stated fails: the title of a match whose metadata
    stores a number under [work_title] is that number, not a string. *)
Lemma sourceOfMatch_number_title :
  work_title (sourceOfMatch Sample.numbered) = JsNumber 9%float
  ∧ is_string (work_title (sourceOfMatch Sample.numbered)) = false
  ∧ Source_typed (sourceOfMatch Sample.numbered) = false.
Proof. vm_compute. done. Qed.

(** ** Citation numbering *)

Lemma append_assoc (a b c : string) : (a +:+ b) +:+ c = a +:+ b +:+ c.
Proof.
  induction a as [|x a IH]; [reflexivity|].
  change (String x ((a +:+ b) +:+ c) = String x (a +:+ b +:+ c)).
  by rewrite IH.
Qed.

Lemma append_empty_r (a : string) : a +:+ "" = a.
Proof.
  induction a as [|x a IH]; [reflexivity|].
  change (String x (a +:+ "") = String x a). by rewrite IH.
Qed.

Lemma string_of_nat_inj (n m : nat) : string_of_nat n = string_of_nat m → n = m.
Proof.
  unfold string_of_nat. intros Heq.
  apply DecimalNat.Unsigned.to_uint_inj.
  apply (f_equal NilEmpty.uint_of_string) in Heq.
  rewrite !NilEmpty.usu in Heq. congruence.
Qed.

Lemma includes_startsWith (sub rest : string) :
  Page.startsWith sub (sub +:+ rest) = true.
Proof.
  induction sub as [|c sub IH]; [reflexivity|].
  change (String c sub +:+ rest) with (String c (sub +:+ rest)). simpl.
  by rewrite Ascii.eqb_refl.
Qed.

Lemma includes_here (sub rest : string) :
  Page.includes (sub +:+ rest) sub = true.
Proof.
  destruct (sub +:+ rest) eqn:Heq; simpl; rewrite <- Heq;
    by rewrite includes_startsWith.
Qed.

Lemma includes_later (before s sub : string) :
  Page.includes s sub = true → Page.includes (before +:+ s) sub = true.
Proof.
  intros Hs. induction before as [|c before IH]; [exact Hs|].
  change (String c before +:+ s) with (String c (before +:+ s)). simpl.
  rewrite IH. apply orb_true_r.
Qed.

Lemma includes_self (s : string) : Page.includes s s = true.
Proof. rewrite <- (append_empty_r s) at 1. apply includes_here. Qed.

Lemma includes_join (sep : string) (l : list string) (i : nat) (x : string) :
  l !! i = Some x → Page.includes (join sep l) x = true.
Proof.
  revert i. induction l as [|y l IH]; intros i Hi; [done|].
  destruct i as [|i]; simpl in Hi.
  - injection Hi as ->. destruct l; [apply includes_self|].
    apply includes_here.
  - destruct l as [|z l]; [done|].
    change (join sep (y :: z :: l)) with (y +:+ sep +:+ join sep (z :: l)).
    do 2 apply includes_later. by apply (IH i).
Qed.

Lemma join_snoc (sep x : string) (l : list string) :
  join sep (l ++ [x])
  = match l with
    | [] => x
    | _ :: _ => join sep l +:+ sep +:+ x
    end.
Proof.
  induction l as [|a l IH]; [reflexivity|].
  destruct l as [|b l]; [reflexivity|].
  change (join sep ((a :: b :: l) ++ [x]))
    with (a +:+ sep +:+ join sep ((b :: l) ++ [x])).
  rewrite IH.
  change (join sep (a :: b :: l)) with (a +:+ sep +:+ join sep (b :: l)).
  by rewrite !append_assoc.
Qed.

Section Citations.

Variable Number_toString : float → string.

Lemma responseLine_header (i : nat) (source : Source) :
  responseLine Number_toString i source
  = citationHeader Number_toString (i + 1) source.
Proof. reflexivity. Qed.

Lemma promptBlock_header (i : nat) (source : Source) :
  promptBlock Number_toString i source
  = citationHeader Number_toString (i + 1) source
    +:+ nl +:+ ToString Number_toString (text source).
Proof.
  unfold promptBlock, citationHeader.
  destruct (truthy (chapter source)).
  - reflexivity.
  - by rewrite append_empty_r.
Qed.

Lemma formatSourcesForResponse_snoc (sources : list Source) (source : Source) :
  formatSourcesForResponse Number_toString (sources ++ [source])
  = match sources with
    | [] => ""
    | _ :: _ => formatSourcesForResponse Number_toString sources +:+ nl
    end
    +:+ citationHeader Number_toString (length sources + 1) source.
Proof.
  unfold formatSourcesForResponse, responseLines.
  rewrite imap_app, imap_cons, imap_nil, join_snoc, Nat.add_0_r.
  rewrite responseLine_header.
  destruct sources as [|s l]; [reflexivity|].
  rewrite imap_cons. by rewrite append_assoc.
Qed.

Lemma formatSourcesForPrompt_snoc (sources : list Source) (source : Source) :
  formatSourcesForPrompt Number_toString (sources ++ [source])
  = match sources with
    | [] => ""
    | _ :: _ =>
        formatSourcesForPrompt Number_toString sources
        +:+ nl +:+ nl +:+ "---" +:+ nl +:+ nl
    end
    +:+ citationHeader Number_toString (length sources + 1) source
    +:+ nl +:+ ToString Number_toString (text source).
Proof.
  unfold formatSourcesForPrompt, promptBlocks.
  rewrite imap_app, imap_cons, imap_nil, join_snoc, Nat.add_0_r.
  rewrite promptBlock_header.
  destruct sources as [|s l]; [reflexivity|].
  rewrite imap_cons. by rewrite append_assoc.
Qed.

(** C2. For every retrieval context (non-empty or not): the citation list
    contains, for the source at each position [i], its citation header
    numbered [i + 1], and the instruction block contains that very header
    followed by a line break and the text of the source; both outputs are
    empty for no source, and adding a source at the end leaves what each
    output held and appends, after the separator, the header with the next
    number (and, in the instruction block, the text). So the numbering is
    1-based, positional, the same in both outputs, and both list the
    sources in the order of the input. The two outputs are the joins of
    one block and one line per source, which carry the same facts piece by
    piece; different positions get different numbers. *)
Theorem citation_numbering_agrees (sources : list Source) :
  formatSourcesForPrompt Number_toString sources
  = join blockSeparator (promptBlocks Number_toString sources)
  ∧ formatSourcesForResponse Number_toString sources
    = join nl (responseLines Number_toString sources)
  ∧ length (promptBlocks Number_toString sources) = length sources
  ∧ length (responseLines Number_toString sources) = length sources
  ∧ (∀ i source, sources !! i = Some source →
       responseLines Number_toString sources !! i
       = Some (citationHeader Number_toString (i + 1) source)
       ∧ promptBlocks Number_toString sources !! i
         = Some (citationHeader Number_toString (i + 1) source
                 +:+ nl +:+ ToString Number_toString (text source)))
  ∧ (∀ i j, i ≠ j → string_of_nat (i + 1) ≠ string_of_nat (j + 1))
  ∧ (∀ i source, sources !! i = Some source →
       Page.includes (formatSourcesForResponse Number_toString sources)
         (citationHeader Number_toString (i + 1) source) = true
       ∧ Page.includes (formatSourcesForPrompt Number_toString sources)
           (citationHeader Number_toString (i + 1) source
            +:+ nl +:+ ToString Number_toString (text source)) = true)
  ∧ formatSourcesForResponse Number_toString [] = ""
  ∧ formatSourcesForPrompt Number_toString [] = ""
  ∧ (∀ source,
       formatSourcesForResponse Number_toString (sources ++ [source])
       = match sources with
         | [] => ""
         | _ :: _ => formatSourcesForResponse Number_toString sources +:+ nl
         end
         +:+ "[" +:+ string_of_nat (length sources + 1) +:+ "] "
         +:+ ToString Number_toString (work_title source)
         +:+ (if truthy (chapter source)
              then ", " +:+ ToString Number_toString (chapter source)
              else "")
       ∧ formatSourcesForPrompt Number_toString (sources ++ [source])
         = match sources with
           | [] => ""
           | _ :: _ =>
               formatSourcesForPrompt Number_toString sources
               +:+ nl +:+ nl +:+ "---" +:+ nl +:+ nl
           end
           +:+ ("[" +:+ string_of_nat (length sources + 1) +:+ "] "
                +:+ ToString Number_toString (work_title source)
                +:+ (if truthy (chapter source)
                     then ", " +:+ ToString Number_toString (chapter source)
                     else ""))
           +:+ nl +:+ ToString Number_toString (text source)).
Proof.
  split; [reflexivity|]. split; [reflexivity|].
  split; [unfold promptBlocks; by rewrite length_imap|].
  split; [unfold responseLines; by rewrite length_imap|].
  assert (∀ i source, sources !! i = Some source →
            responseLines Number_toString sources !! i
            = Some (citationHeader Number_toString (i + 1) source)
            ∧ promptBlocks Number_toString sources !! i
              = Some (citationHeader Number_toString (i + 1) source
                      +:+ nl +:+ ToString Number_toString (text source)))
    as Hpieces.
  { intros i source Hi. unfold promptBlocks, responseLines.
    rewrite !list_lookup_imap, Hi. simpl.
    by rewrite responseLine_header, promptBlock_header. }
  split; [exact Hpieces|]. split.
  { intros i j Hij Heq. apply string_of_nat_inj in Heq. lia. }
  split.
  { intros i source [Hline Hblock]%Hpieces. split.
    - unfold formatSourcesForResponse. by apply (includes_join _ _ i).
    - unfold formatSourcesForPrompt. by apply (includes_join _ _ i). }
  split; [reflexivity|]. split; [reflexivity|].
  intros source. split.
  - rewrite formatSourcesForResponse_snoc. unfold citationHeader.
    destruct sources; reflexivity.
  - apply formatSourcesForPrompt_snoc.
Qed.

End Citations.

Lemma citation_numbering_six :
  responseLines Sample.Number_toString (selectSources Sample.six) !! 1
  = Some "[2] Psychological Types"
  ∧ promptBlocks Sample.Number_toString (selectSources Sample.six) !! 1
    = Some ("[2] Psychological Types" +:+ nl
            +:+ "passage from Psychological Types")
  ∧ Page.includes
      (formatSourcesForResponse Sample.Number_toString
         (selectSources Sample.six))
      "[2] Psychological Types" = true
  ∧ Page.includes
      (formatSourcesForPrompt Sample.Number_toString
         (selectSources Sample.six))
      ("[2] Psychological Types" +:+ nl
       +:+ "passage from Psychological Types") = true
  ∧ formatSourcesForResponse Sample.Number_toString
      (take 2 Sample.six
       ++ [Sample.result "Symbols of Transformation" 0.75%float])
    = "[1] Aion" +:+ nl +:+ "[2] Psychological Types" +:+ nl
      +:+ "[3] Symbols of Transformation".
Proof.
  pose proof (citation_numbering_agrees Sample.Number_toString
                (selectSources Sample.six))
    as (_ & _ & _ & _ & Hpos & _ & Hout & _).
  destruct (Hpos 1 (Sample.result "Psychological Types" 0.82%float))
    as [Hline Hblock]; [reflexivity|].
  destruct (Hout 1 (Sample.result "Psychological Types" 0.82%float))
    as [Hresponse Hprompt]; [reflexivity|].
  split; [exact Hline|]. split; [exact Hblock|].
  split; [exact Hresponse|]. split; [exact Hprompt|].
  pose proof (citation_numbering_agrees Sample.Number_toString
                (take 2 Sample.six))
    as (_ & _ & _ & _ & _ & _ & _ & _ & _ & Hsnoc).
  destruct (Hsnoc (Sample.result "Symbols of Transformation" 0.75%float))
    as [-> _].
  reflexivity.
Defined.

(** ** Runs of the route *)

Lemma bind_ret {A B} (a : A) (f : A → Eff B) : bind (ret a) f = f a.
Proof. unfold bind, ret. by destruct (f a). Qed.

Section RouteFacts.

Variable Number_toString : float → string.
Variable svc : Services.

(** Every run of [POST], by the body it is sent and the answers of the
    three services. *)
Lemma POST_runs (request : RequestBody) :
  POST Number_toString svc request =
  match queryOf request with
  | None => ([], Return genericError)
  | Some query =>
      let e := embedRequest query in
      match embed_api svc e with
      | FetchResponse true _ (Some v) =>
          let q := queryRequest svc v 6 in
          match index_query svc q with
          | QueryResponse matches =>
              match request with
              | Chat req =>
                  let sources := selectSources (sourcesOfMatches matches) in
                  let c := createRequest Number_toString req sources in
                  ([CallEmbed e; CallQuery q; CallCreate c],
                   match messages_create svc c with
                   | CreateResponse (TextBlock t :: _) =>
                       Return (successResponse Number_toString t sources)
                   | CreateResponse (OtherBlock :: _) =>
                       Return (successResponse Number_toString "" sources)
                   | CreateResponse [] | CreateRejected => Return genericError
                   end)
              | Unreadable | NoMessages _ =>
                  ([CallEmbed e; CallQuery q], Return genericError)
              end
          | QueryRejected => ([CallEmbed e; CallQuery q], Return genericError)
          end
      | _ => ([CallEmbed e], Return genericError)
      end
  end.
Proof.
  unfold POST, readQuery.
  destruct (queryOf request) as [query|] eqn:Hrequest; [|reflexivity].
  rewrite bind_ret.
  unfold queryPinecone, generateQueryEmbedding, fetch_embed, run_query,
    run_create. cbn zeta.
  destruct (embed_api svc (embedRequest query)) as [|[] st [v|]];
    try reflexivity.
  cbn. destruct (index_query svc _) as [|matches]; [reflexivity|].
  destruct request as [|query'|req]; try reflexivity.
  cbn. destruct (messages_create svc _) as [|[|[t|] blocks]]; reflexivity.
Qed.

(** The first call of every run is the embedding call. *)
Lemma POST_calls_embedding (request : RequestBody) (query : string) :
  queryOf request = Some query →
  ∃ rest, calls (POST Number_toString svc request)
          = CallEmbed (embedRequest query) :: rest.
Proof.
  intros Hrequest. rewrite POST_runs, Hrequest. cbn zeta.
  destruct (embed_api svc _) as [|[] st [v|]]; try (by eexists).
  destruct (index_query svc _); [by eexists|].
  destruct request; by eexists.
Qed.

End RouteFacts.

(** ** Blank queries *)

Lemma trimStart_blank (s : string) : blank s = true → trimStart s = "".
Proof.
  induction s as [|c s IH]; [done|]. simpl.
  destruct (isWhiteSpace c); [exact IH | discriminate].
Qed.

Lemma trim_blank (s : string) : blank s = true → trim s = "".
Proof. intros Hs. unfold trim. by rewrite (trimStart_blank _ Hs). Qed.

(** C3, as the code has it. A query that is empty or made of white space
    only is stopped by the guard of [handleExplore], before the request to
    the route is sent: no embedding, search or generation call is made
    and there is no response. *)
Theorem handleExplore_blank_query_makes_no_call
  (Number_toString : float → string) (svc : Services)
  (query : string) (isLoading : bool) :
  blank query = true →
  calls (handleExplore Number_toString svc query isLoading) = []
  ∧ outcome (handleExplore Number_toString svc query isLoading) = Return None.
Proof.
  intros Hblank. unfold handleExplore. by rewrite (trim_blank _ Hblank).
Qed.

Lemma handleExplore_three_spaces :
  calls (handleExplore Sample.Number_toString Sample.healthy "   " false) = []
  ∧ outcome (handleExplore Sample.Number_toString Sample.healthy "   " false)
    = Return None.
Proof.
  apply (handleExplore_blank_query_makes_no_call
           Sample.Number_toString Sample.healthy "   " false).
  reflexivity.
Defined.

(** The claim C3 as stated fails on the route: [POST] does not look at the
    query before it calls the embedding service. A request whose query is
    three spaces is embedded, searched and answered. *)
Lemma POST_blank_query_is_embedded :
  blank (query Sample.spaces) = true
  ∧ trim (query Sample.spaces) = ""
  ∧ calls (POST Sample.Number_toString Sample.healthy (Chat Sample.spaces))
    = [CallEmbed (embedRequest "   ");
       CallQuery (queryRequest Sample.healthy Sample.vector 6);
       CallCreate (createRequest Sample.Number_toString Sample.spaces
                     (take 3 Sample.six))]
  ∧ embed_text (embedRequest "   ") = "query:    "
  ∧ ∃ response,
      outcome (POST Sample.Number_toString Sample.healthy
                 (Chat Sample.spaces))
      = Return response ∧ status response = 200.
Proof.
  split; [reflexivity|]. split; [reflexivity|]. split; [|split].
  - vm_compute. reflexivity.
  - reflexivity.
  - eexists. split; [vm_compute; reflexivity | reflexivity].
Qed.

(** ** The embedding client *)

Lemma length_append (a b : string) :
  String.length (a +:+ b) = String.length a + String.length b.
Proof.
  induction a as [|x a IH]; [reflexivity|].
  change (S (String.length (a +:+ b)) = S (String.length a + String.length b)).
  by rewrite IH.
Qed.

(** C9. For every query [q], the embedding client makes exactly one call,
    to the embedding service, and the text it sends is ["query: "]
    followed by [q]: not [q] itself, and not [q] under the passage marker
    ["passage: "]. *)
Theorem generateQueryEmbedding_sends_query_marker
  (svc : Services) (q : string) :
  ∃ r, calls (generateQueryEmbedding svc q) = [CallEmbed r]
       ∧ embed_text r = "query: " +:+ q
       ∧ embed_text r ≠ q
       ∧ embed_text r ≠ "passage: " +:+ q.
Proof.
  exists (embedRequest q). split; [|split; [|split]].
  - unfold generateQueryEmbedding, fetch_embed. cbn.
    destruct (embed_api svc _) as [|[] st [v|]]; reflexivity.
  - reflexivity.
  - intros Heq. apply (f_equal String.length) in Heq.
    cbn [embedRequest embed_text] in Heq. rewrite length_append in Heq.
    simpl in Heq. lia.
  - discriminate.
Qed.

Lemma generateQueryEmbedding_shadow :
  ∃ r, calls (generateQueryEmbedding Sample.healthy "What is the shadow?")
       = [CallEmbed r]
       ∧ embed_text r = "query: What is the shadow?"
       ∧ embed_text r ≠ "What is the shadow?"
       ∧ embed_text r ≠ "passage: What is the shadow?".
Proof.
  exact (generateQueryEmbedding_sends_query_marker
           Sample.healthy "What is the shadow?").
Defined.

(** ** Failures and fallbacks of the route *)

(** Case analysis on a run of [POST]: one goal per answer of the embedding
    service, of the index and of the generator. *)
Ltac run_cases :=
  rewrite POST_runs;
  try match goal with
      | |- context [queryOf ?b] =>
          is_var b; destruct b as [|?query|?req]
      end;
  cbn [queryOf]; cbn zeta;
  try (destruct (embed_api _ _) as [|[] ?st [?v|]] eqn:?Hembed;
       [|destruct (index_query _ _) as [|?matches] eqn:?Hquery;
         [|try destruct (messages_create _ _)
               as [|[|[?t|] ?blocks]] eqn:?Hcreate]|..]).

(** Case analysis on a call that belongs to the log of a run. *)
Ltac in_calls H :=
  unfold calls in H; simpl in H;
  rewrite ?elem_of_cons, ?elem_of_nil in H;
  repeat (destruct H as [H | H]); try done.

Section Orchestrator.

Variable Number_toString : float → string.
Variable svc : Services.



(** C7. When the embedding service answers with a non-success response,
    the embedding client throws, the only call the route has made is the
    embedding call (no search call, no generation call), and the response
    is the generic error, status 500, with no citations. This holds for
    every body from which a query can be read. *)
Theorem POST_embedding_failure
  (request : RequestBody) (query : string) (st : nat)
  (values : option (option (list float))) :
  queryOf request = Some query →
  embed_api svc (embedRequest query) = FetchResponse false st values →
  outcome (generateQueryEmbedding svc query)
  = Throw (Error ("Embedding API error: " +:+ string_of_nat st))
  ∧ calls (POST Number_toString svc request) = [CallEmbed (embedRequest query)]
  ∧ (∀ r, CallQuery r ∉ calls (POST Number_toString svc request))
  ∧ outcome (POST Number_toString svc request) = Return genericError
  ∧ status genericError = 500
  ∧ field "sources" (body genericError) = None
  ∧ field "rawSources" (body genericError) = None.
Proof.
  intros Hrequest Hembed. split.
  { unfold generateQueryEmbedding, fetch_embed. cbn. by rewrite Hembed. }
  rewrite POST_runs, Hrequest. cbn zeta. rewrite Hembed.
  repeat split. intros r Hin. apply list_elem_of_singleton in Hin. discriminate.
Qed.

(** C5. Whenever a call made by the route fails (the embedding, the search
    or the generation), the route returns the generic error and nothing
    else: a body with the single field [error], status 500, and no answer
    text, citation list or raw sources. Every response of the route, to
    any body, is either this error or a complete success. *)
Theorem POST_failure_is_generic (request : RequestBody) :
  (∀ c, c ∈ calls (POST Number_toString svc request) →
        call_failed svc c = true →
        outcome (POST Number_toString svc request) = Return genericError)
  ∧ (outcome (POST Number_toString svc request) = Return genericError
     ∨ ∃ answer sources,
         outcome (POST Number_toString svc request)
         = Return (successResponse Number_toString answer sources))
  ∧ genericError
    = {| status := 500;
         body := JObject [("error", JValue (JsString "Failed to process request"))] |}
  ∧ field "message" (body genericError) = None
  ∧ field "sources" (body genericError) = None
  ∧ field "rawSources" (body genericError) = None.
Proof.
  split; [|split; [|repeat split]].
  - intros c Hin Hfailed. revert Hin. run_cases; try done.
    all: intros Hin; exfalso; in_calls Hin; subst c; simpl in Hfailed;
      rewrite ?Hembed, ?Hquery, ?Hcreate in Hfailed; discriminate.
  - run_cases; try (by left); right; by do 2 eexists.
Qed.

(** C8. The search call of the route always asks for 6 candidates, and it
    is made on every request whose embedding succeeds; the generation call
    comes after it and its prompt is built from the filtered results of
    that search, which are at most 3. *)
Theorem POST_fetches_six_prompts_three (request : RequestBody) :
  (∀ r, CallQuery r ∈ calls (POST Number_toString svc request) →
        query_topK r = 6)
  ∧ (∀ query st v,
       queryOf request = Some query →
       embed_api svc (embedRequest query) = FetchResponse true st (Some v) →
       ∃ rest, calls (POST Number_toString svc request)
               = CallEmbed (embedRequest query)
                 :: CallQuery (queryRequest svc v 6) :: rest)
  ∧ (∀ c, CallCreate c ∈ calls (POST Number_toString svc request) →
       ∃ req e q matches,
         request = Chat req
         ∧ calls (POST Number_toString svc request)
           = [CallEmbed e; CallQuery q; CallCreate c]
         ∧ query_topK q = 6
         ∧ index_query svc q = QueryResponse matches
         ∧ c = createRequest Number_toString req
                 (selectSources (sourcesOfMatches matches))
         ∧ length (selectSources (sourcesOfMatches matches)) ≤ 3
         ∧ length (promptBlocks Number_toString
                     (selectSources (sourcesOfMatches matches))) ≤ 3).
Proof.
  split; [|split].
  - intros r. run_cases; intros Hin; in_calls Hin; by injection Hin as ->.
  - intros query st v Hrequest Hembed. rewrite POST_runs, Hrequest. cbn zeta.
    rewrite Hembed. destruct (index_query svc _); [by eexists|].
    destruct request; by eexists.
  - intros c. run_cases; intros Hin; in_calls Hin.
    all: injection Hin as ->; do 4 eexists.
    all: split; [reflexivity|].
    all: split; [reflexivity|]; split; [reflexivity|]; split; [exact Hquery|].
    all: split; [reflexivity|].
    all: pose proof (selectSources_length (sourcesOfMatches matches)) as Hlen.
    all: unfold promptBlocks; by rewrite length_imap.
Qed.

End Orchestrator.

(** ** The theorems of the route on the scenarios of the specification *)



(** Scenario C: the embedding service answers 503. *)
Lemma POST_embedding_failure_503 :
  outcome (generateQueryEmbedding Sample.embedding_down "What is the shadow?")
  = Throw (Error "Embedding API error: 503")
  ∧ calls (POST Sample.Number_toString Sample.embedding_down
             (Chat Sample.question))
    = [CallEmbed (embedRequest "What is the shadow?")]
  ∧ outcome (POST Sample.Number_toString Sample.embedding_down
               (Chat Sample.question))
    = Return genericError.
Proof.
  destruct (POST_embedding_failure Sample.Number_toString Sample.embedding_down
              (Chat Sample.question) "What is the shadow?" 503 None)
    as (Hthrow & Hcalls & _ & Hout & _).
  - reflexivity.
  - reflexivity.
  - split; [exact Hthrow|]. split; [exact Hcalls | exact Hout].
Defined.

(** The generation service rejects the call after a successful search. *)
Lemma POST_failure_is_generic_generation :
  outcome (POST Sample.Number_toString Sample.generation_down
             (Chat Sample.question))
  = Return genericError.
Proof.
  destruct (POST_failure_is_generic Sample.Number_toString
              Sample.generation_down (Chat Sample.question)) as [Hfail _].
  apply (Hfail (CallCreate (createRequest Sample.Number_toString
                              Sample.question (take 3 Sample.six)))).
  - apply (list_elem_of_lookup_2 _ 2). vm_compute. reflexivity.
  - reflexivity.
Defined.

(** Scenario A: six matches requested, three sources in the prompt. *)
Lemma POST_fetches_six_prompts_three_healthy :
  ∃ rest,
    calls (POST Sample.Number_toString Sample.healthy (Chat Sample.question))
    = CallEmbed (embedRequest "What is the shadow?")
      :: CallQuery {| query_index := "jung-works";
                      query_vector := Sample.vector;
                      query_topK := 6;
                      query_includeMetadata := true |} :: rest.
Proof.
  destruct (POST_fetches_six_prompts_three Sample.Number_toString
              Sample.healthy (Chat Sample.question)) as (_ & Hquery & _).
  apply (Hquery "What is the shadow?" 200 Sample.vector); reflexivity.
Defined.

(** * Further properties of the route *)

(** ** More on the relevance filter *)

Lemma filter_relevant_all (l : list Source) :
  Forall (λ s, relevant s = true) l → List.filter relevant l = l.
Proof.
  induction 1 as [|s l Hs _ IH]; [done|]. simpl. by rewrite Hs, IH.
Qed.

Lemma filter_relevant_Forall (l : list Source) :
  Forall (λ s, relevant s = true) (List.filter relevant l).
Proof.
  apply Forall_forall. intros s Hs.
  apply list_elem_of_In, filter_In in Hs. tauto.
Qed.

(** X1. The filter keeps exactly as many results as there are above the
    threshold, up to 3; when no more than three are above the threshold,
    every one of them is kept. *)
Theorem selectSources_count (results : list Source) :
  length (selectSources results)
  = min 3 (length (List.filter relevant results))
  ∧ (length (List.filter relevant results) ≤ 3 →
     ∀ s, s ∈ results → relevant s = true → s ∈ selectSources results).
Proof.
  split.
  - unfold selectSources. by rewrite length_take.
  - intros Hfew s Hs Hrel. unfold selectSources.
    rewrite take_ge by exact Hfew.
    apply list_elem_of_In, filter_In. split; [by apply list_elem_of_In|done].
Qed.

Lemma selectSources_count_six :
  Sample.result "Aion" 0.9%float ∈ selectSources (take 2 Sample.six).
Proof.
  destruct (selectSources_count (take 2 Sample.six)) as [_ Hkept].
  apply Hkept.
  - vm_compute. lia.
  - apply (list_elem_of_lookup_2 _ 0). reflexivity.
  - reflexivity.
Defined.

(** X2. When the search results come in descending order of score, the
    filter keeps the best ones: a result above the threshold that is cut
    off by the limit of 3 never scores higher than a result that is kept. *)
Theorem selectSources_keeps_best (results : list Source) :
  (∀ i j a b, i < j → results !! i = Some a → results !! j = Some b →
              (score b <=? score a)%float = true) →
  ∀ s t, s ∈ selectSources results →
         t ∈ drop 3 (List.filter relevant results) →
         (score t <=? score s)%float = true.
Proof.
  intros Hsorted s t Hs Ht.
  destruct (sublist_positions _ _ (filter_sublist relevant results))
    as [pos [Hmono Hpos]].
  unfold selectSources in Hs.
  apply elem_of_take in Hs as [a [Ha Hlt]].
  apply list_elem_of_lookup in Ht as [b Hb]. rewrite lookup_drop in Hb.
  apply (Hsorted (pos a) (pos (3 + b))).
  - apply Hmono. unfold maxSources in Hlt. lia.
  - by apply Hpos.
  - by apply Hpos.
Qed.

Lemma selectSources_keeps_best_six :
  (score (Sample.result "Mysterium Coniunctionis" 0.71%float)
   <=? score (Sample.result "Symbols of Transformation" 0.75%float))%float
  = true.
Proof.
  apply (selectSources_keeps_best Sample.six).
  - intros [|[|[|[|[|[|i]]]]]] [|[|[|[|[|[|j]]]]]] a b Hij Ha Hb;
      try lia; try discriminate;
      injection Ha as <-; injection Hb as <-; reflexivity.
  - apply (list_elem_of_lookup_2 _ 2). reflexivity.
  - apply (list_elem_of_lookup_2 _ 0). reflexivity.
Defined.

(** X3. Filtering is idempotent: applied to an already filtered context
    it changes nothing. *)
Theorem selectSources_idempotent (results : list Source) :
  selectSources (selectSources results) = selectSources results.
Proof.
  unfold selectSources at 1.
  rewrite filter_relevant_all.
  - unfold selectSources. apply take_idemp.
  - unfold selectSources. apply Forall_take, filter_relevant_Forall.
Qed.

(** ** Scores at the boundary with the index *)

(** X4. The score of a search result is never NaN: a missing score, a
    zero and a NaN all become 0, and any other score is passed through
    unchanged (negative ones included). *)
Theorem sourceOfMatch_score (m : ScoredRecord) :
  PrimFloat.is_nan (score (sourceOfMatch m)) = false
  ∧ (match_score m = None → score (sourceOfMatch m) = 0%float)
  ∧ (∀ x, match_score m = Some x → PrimFloat.is_nan x = true →
          score (sourceOfMatch m) = 0%float)
  ∧ (∀ x, match_score m = Some x → PrimFloat.is_zero x = true →
          score (sourceOfMatch m) = 0%float)
  ∧ (∀ x, match_score m = Some x →
          PrimFloat.is_nan x = false → PrimFloat.is_zero x = false →
          score (sourceOfMatch m) = x).
Proof.
  unfold sourceOfMatch, score_or_zero, number_truthy. simpl.
  split; [|split; [|split; [|split]]].
  - destruct (match_score m) as [x|]; [|reflexivity].
    destruct (PrimFloat.is_zero x); [reflexivity|].
    destruct (PrimFloat.is_nan x) eqn:Hnan; [reflexivity | exact Hnan].
  - by intros ->.
  - intros x -> ->. by rewrite orb_true_r.
  - by intros x -> ->.
  - by intros x -> -> ->.
Qed.

(** A match without a score, one whose score is NaN, and one with a
    negative score. *)
Lemma sourceOfMatch_score_examples :
  score (sourceOfMatch Sample.unscored) = 0%float
  ∧ score (sourceOfMatch (Sample.scored "Aion" PrimFloat.nan)) = 0%float
  ∧ score (sourceOfMatch (Sample.scored "Aion" (-0.25)%float))
    = (-0.25)%float.
Proof.
  split; [|split].
  - destruct (sourceOfMatch_score Sample.unscored) as (_ & Hmissing & _).
    apply Hmissing. reflexivity.
  - destruct (sourceOfMatch_score (Sample.scored "Aion" PrimFloat.nan))
      as (_ & _ & Hnan & _).
    apply (Hnan PrimFloat.nan); reflexivity.
  - destruct (sourceOfMatch_score (Sample.scored "Aion" (-0.25)%float))
      as (_ & _ & _ & _ & Hkeep).
    apply Hkeep; reflexivity.
Defined.

(** ** More on the runs of the route *)


Lemma join_cons_nonempty (sep x : string) (l : list string) :
  x ≠ "" → join sep (x :: l) ≠ "".
Proof.
  intros Hx. destruct l as [|y l]; [exact Hx|].
  destruct x as [|c x]; [done|]. discriminate.
Qed.

Section Runs.

Variable Number_toString : float → string.
Variable svc : Services.

Lemma formatSourcesForResponse_empty (sources : list Source) :
  formatSourcesForResponse Number_toString sources = "" ↔ sources = [].
Proof.
  split; [|by intros ->].
  destruct sources as [|s l]; [done|]. intros Hempty. exfalso.
  revert Hempty. unfold formatSourcesForResponse, responseLines.
  rewrite imap_cons. apply join_cons_nonempty. discriminate.
Qed.


(** X6. The route never lets an exception escape: every request is
    answered, with status 200 or 500; a 200 answer is given only after all
    three services were called and none of the calls failed. *)
Theorem POST_always_answers (request : RequestBody) :
  ∃ response,
    outcome (POST Number_toString svc request) = Return response
    ∧ (status response = 200 ∨ status response = 500)
    ∧ (status response = 200 →
       length (calls (POST Number_toString svc request)) = 3
       ∧ ∀ c, c ∈ calls (POST Number_toString svc request) →
              call_failed svc c = false).
Proof.
  run_cases; eexists; (split; [reflexivity|]);
    (split; [(by left) || (by right)|]); try discriminate.
  all: intros _; split; [reflexivity|]; intros c Hin; in_calls Hin; subst c;
    simpl; by rewrite ?Hembed, ?Hquery, ?Hcreate.
Qed.


(** X8. What a successful response shows is what the generator was
    given: the raw sources and the citation list of the response come from
    the very sources of the Sources block of the prompt, at most three;
    the citation list is the empty string exactly when there are no raw
    sources. *)
Theorem POST_success_sources
  (request : RequestBody) (response : NextResponse) :
  outcome (POST Number_toString svc request) = Return response →
  status response = 200 →
  ∃ req answer sources,
    request = Chat req
    ∧ response = successResponse Number_toString answer sources
    ∧ CallCreate (createRequest Number_toString req sources)
      ∈ calls (POST Number_toString svc request)
    ∧ length sources ≤ 3
    ∧ field "rawSources" (body response)
      = Some (JArray (json_of_source <$> sources))
    ∧ field "sources" (body response)
      = Some (JValue (JsString (formatSourcesForResponse Number_toString sources)))
    ∧ (formatSourcesForResponse Number_toString sources = "" ↔ sources = []).
Proof.
  unfold outcome. run_cases; simpl; intros Hout Hstatus;
    injection Hout as <-; try discriminate.
  all: eexists _, _, _; split; [reflexivity|]; split; [reflexivity|].
  all: split; [apply (list_elem_of_lookup_2 _ 2); reflexivity|].
  all: split; [apply selectSources_length|].
  all: split; [reflexivity|]; split; [reflexivity|].
  all: apply formatSourcesForResponse_empty.
Qed.

(** X9. Answers that are well received but malformed. When reading
    [data[0].values] of an [ok] embedding response throws, the request
    ends in the generic error after the embedding call alone. When
    [data[0]] is there without [values], nothing is thrown: the search is
    still called, with an undefined vector. When the generator returns no
    content block, the request ends in the generic error although no call
    failed; when its first content block is not a text block the request
    succeeds with the empty string as its message, whatever blocks
    follow. *)
Theorem POST_malformed_answers
  (request : RequestBody) (query : string) (st : nat) :
  queryOf request = Some query →
  (embed_api svc (embedRequest query) = FetchResponse true st None →
   POST Number_toString svc request
   = ([CallEmbed (embedRequest query)], Return genericError))
  ∧ (embed_api svc (embedRequest query) = FetchResponse true st (Some None) →
     ∃ rest,
       calls (POST Number_toString svc request)
       = CallEmbed (embedRequest query)
         :: CallQuery {| query_index := indexName svc;
                         query_vector := None;
                         query_topK := 6;
                         query_includeMetadata := true |} :: rest)
  ∧ (∀ req v matches,
       request = Chat req →
       embed_api svc (embedRequest query) = FetchResponse true st (Some v) →
       index_query svc (queryRequest svc v 6) = QueryResponse matches →
       let sources := selectSources (sourcesOfMatches matches) in
       (messages_create svc (createRequest Number_toString req sources)
        = CreateResponse [] →
        outcome (POST Number_toString svc request) = Return genericError
        ∧ ∀ c, c ∈ calls (POST Number_toString svc request) →
               call_failed svc c = false)
       ∧ (∀ blocks,
            messages_create svc (createRequest Number_toString req sources)
            = CreateResponse (OtherBlock :: blocks) →
            outcome (POST Number_toString svc request)
            = Return (successResponse Number_toString "" sources))).
Proof.
  intros Hrequest. split; [|split].
  - intros Hembed. rewrite POST_runs, Hrequest. cbn zeta. by rewrite Hembed.
  - intros Hembed. rewrite POST_runs, Hrequest. cbn zeta. rewrite Hembed.
    destruct (index_query svc _); [by eexists|].
    destruct request; by eexists.
  - intros req v matches -> Hembed Hquery sources. subst sources.
    injection Hrequest as <-. split.
    + intros Hcreate. rewrite POST_runs. cbn [queryOf]. cbn zeta.
      rewrite Hembed, Hquery, Hcreate. split; [reflexivity|].
      intros c Hin. in_calls Hin; subst c; simpl;
        by rewrite ?Hembed, ?Hquery, ?Hcreate.
    + intros blocks Hcreate. rewrite POST_runs. cbn [queryOf]. cbn zeta.
      by rewrite Hembed, Hquery, Hcreate.
Qed.

End Runs.

(** ** From the matches of the index to the prompt *)

Section Grounding.

Variable Number_toString : float → string.
Variable svc : Services.

(** X10. Every source that is kept reaches the generator whole: the
    system prompt contains, in one piece, its citation header with its
    number, a line break and its text. *)
Theorem systemPrompt_contains_sources
  (sources : list Source) (i : nat) (source : Source) :
  sources !! i = Some source →
  Page.includes (systemPrompt Number_toString sources)
    (citationHeader Number_toString (i + 1) source +:+ nl
     +:+ ToString Number_toString (text source)) = true.
Proof.
  intros Hi. unfold systemPrompt.
  assert (Nat.ltb 0 (length sources) = true) as ->.
  { apply Nat.ltb_lt. apply lookup_lt_Some in Hi. lia. }
  do 3 apply includes_later.
  unfold formatSourcesForPrompt. apply (includes_join _ _ i).
  unfold promptBlocks. rewrite list_lookup_imap, Hi. simpl.
  by rewrite promptBlock_header.
Qed.

(** X11. The sources of a run come from the matches of the index in the
    order the index gave them: the source at position [j] is built from
    the match at position [pos j], for a strictly increasing [pos], and
    its score is above the threshold. *)
Theorem sources_follow_matches (ms : list ScoredRecord) :
  ∃ pos : nat → nat,
    (∀ j k, j < k → pos j < pos k)
    ∧ ∀ j s, selectSources (sourcesOfMatches (Some ms)) !! j = Some s →
        ∃ m, ms !! pos j = Some m ∧ s = sourceOfMatch m
             ∧ (0.7 <? score s)%float = true.
Proof.
  destruct (sublist_positions _ _
              (selectSources_sublist (sourcesOfMatches (Some ms))))
    as [pos [Hmono Hpos]].
  exists pos. split; [exact Hmono|]. intros j s Hj.
  pose proof (selectSources_relevant _ _ (list_elem_of_lookup_2 _ _ _ Hj))
    as Hrel.
  apply Hpos in Hj. simpl in Hj. rewrite list_lookup_fmap in Hj.
  destruct (ms !! pos j) as [m|]; [|discriminate].
  injection Hj as <-. by exists m.
Qed.

End Grounding.

Lemma systemPrompt_contains_sources_six :
  Page.includes
    (systemPrompt Sample.Number_toString (selectSources Sample.six))
    ("[2] Psychological Types" +:+ nl
     +:+ "passage from Psychological Types") = true.
Proof.
  apply (systemPrompt_contains_sources Sample.Number_toString
           (selectSources Sample.six) 1
           (Sample.result "Psychological Types" 0.82%float)).
  reflexivity.
Defined.

Lemma sources_follow_matches_healthy :
  ∃ (pos : nat → nat) (m : ScoredRecord),
    SamplePage.matches !! pos 2 = Some m
    ∧ Sample.result "Symbols of Transformation" 0.75%float = sourceOfMatch m.
Proof.
  destruct (sources_follow_matches SamplePage.matches) as [pos [_ Hpos]].
  destruct (Hpos 2 (Sample.result "Symbols of Transformation" 0.75%float))
    as (m & Hm & Heq & _); [reflexivity|].
  by exists pos, m.
Defined.

(** ** The runs of the route on examples *)

Lemma POST_always_answers_healthy :
  ∃ response,
    outcome (POST Sample.Number_toString Sample.healthy (Chat Sample.question))
    = Return response
    ∧ length (calls (POST Sample.Number_toString Sample.healthy
                       (Chat Sample.question))) = 3.
Proof.
  destruct (POST_always_answers Sample.Number_toString Sample.healthy
              (Chat Sample.question)) as (response & Hout & _ & Hok).
  exists response. split; [exact Hout|]. apply Hok.
  revert Hout. vm_compute. by intros [= <-].
Defined.


Lemma POST_success_sources_healthy :
  ∃ answer sources,
    outcome (POST Sample.Number_toString Sample.healthy (Chat Sample.question))
    = Return (successResponse Sample.Number_toString answer sources)
    ∧ length sources ≤ 3.
Proof.
  destruct (POST_success_sources Sample.Number_toString Sample.healthy
              (Chat Sample.question)
              (successResponse Sample.Number_toString
                 "The shadow is what we hide." (take 3 Sample.six)))
    as (req & answer & sources & _ & Heq & _ & Hlen & _).
  - vm_compute. reflexivity.
  - reflexivity.
  - exists answer, sources. split; [|exact Hlen].
    rewrite <- Heq. vm_compute. reflexivity.
Defined.

(** An [ok] embedding response without [values]: the search is called
    with an undefined vector; and a generator that answers with a tool
    block first: the message is the empty string. *)
Lemma POST_malformed_answers_examples :
  (∃ rest,
     calls (POST Sample.Number_toString Sample.no_values
              (Chat Sample.question))
     = CallEmbed (embedRequest "What is the shadow?")
       :: CallQuery {| query_index := "jung-works";
                       query_vector := None;
                       query_topK := 6;
                       query_includeMetadata := true |} :: rest)
  ∧ outcome (POST Sample.Number_toString SamplePage.tool_first
               (Chat Sample.question))
    = Return (successResponse Sample.Number_toString "" (take 3 Sample.six)).
Proof.
  split.
  - destruct (POST_malformed_answers Sample.Number_toString Sample.no_values
                (Chat Sample.question) "What is the shadow?" 200)
      as (_ & Hundefined & _); [reflexivity|].
    apply Hundefined. reflexivity.
  - destruct (POST_malformed_answers Sample.Number_toString
                SamplePage.tool_first (Chat Sample.question)
                "What is the shadow?" 200) as (_ & _ & Hcreate);
      [reflexivity|].
    destruct (Hcreate Sample.question Sample.vector (Some SamplePage.matches))
      as [_ Hother]; [reflexivity..|].
    apply (Hother [TextBlock "late"]). reflexivity.
Defined.

(** * Properties of the page *)

(** ** Strings *)

Lemma rev_app_append (s acc : string) :
  String.rev_app s acc = String.rev s +:+ acc.
Proof.
  unfold String.rev. revert acc.
  induction s as [|a s IH]; intros acc; [reflexivity|]. simpl.
  rewrite (IH (String a acc)), (IH (String a "")).
  by rewrite append_assoc.
Qed.

Lemma rev_cons (a : Ascii.ascii) (s : string) :
  String.rev (String a s) = String.rev s +:+ String a "".
Proof. unfold String.rev at 1. simpl. apply rev_app_append. Qed.

Lemma rev_append (a b : string) :
  String.rev (a +:+ b) = String.rev b +:+ String.rev a.
Proof.
  induction a as [|x a IH].
  - change ("" +:+ b) with b. by rewrite append_empty_r.
  - change (String x a +:+ b) with (String x (a +:+ b)).
    by rewrite !rev_cons, IH, append_assoc.
Qed.

Lemma blank_append (a b : string) : blank (a +:+ b) = blank a && blank b.
Proof.
  induction a as [|x a IH]; [reflexivity|].
  change (String x a +:+ b) with (String x (a +:+ b)). simpl.
  rewrite IH. by destruct (isWhiteSpace x).
Qed.

Lemma blank_rev (s : string) : blank (String.rev s) = blank s.
Proof.
  induction s as [|a s IH]; [reflexivity|].
  rewrite rev_cons, blank_append, IH. simpl.
  destruct (isWhiteSpace a), (blank s); reflexivity.
Qed.

Lemma trimStart_append (a b : string) :
  blank a = false → trimStart (a +:+ b) = trimStart a +:+ b.
Proof.
  induction a as [|x a IH]; [discriminate|].
  change (String x a +:+ b) with (String x (a +:+ b)). simpl.
  destruct (isWhiteSpace x); [exact IH | reflexivity].
Qed.

Lemma trimStart_blank_append (a b : string) :
  blank a = true → trimStart (a +:+ b) = trimStart b.
Proof.
  induction a as [|x a IH]; [reflexivity|].
  change (String x a +:+ b) with (String x (a +:+ b)). simpl.
  destruct (isWhiteSpace x); [exact IH | discriminate].
Qed.

(** [trimEnd] leaves a leading code unit that is not white space where it
    is. *)
Lemma trimEnd_cons (c : Ascii.ascii) (s : string) :
  isWhiteSpace c = false → trimEnd (String c s) = String c (trimEnd s).
Proof.
  intros Hc. unfold trimEnd. rewrite rev_cons.
  destruct (blank (String.rev s)) eqn:Hblank.
  - rewrite (trimStart_blank_append _ _ Hblank).
    rewrite (trimStart_blank _ Hblank). simpl. by rewrite Hc.
  - rewrite (trimStart_append _ _ Hblank), rev_append. reflexivity.
Qed.

Lemma length_substring (n : nat) (s : string) :
  String.length (String.substring 0 n s) ≤ n.
Proof.
  revert s. induction n as [|n IH]; intros [|c s]; simpl; try lia.
  specialize (IH s). lia.
Qed.

Lemma trimStart_nonblank (s : string) :
  blank s = false →
  ∃ c s', trimStart s = String c s' ∧ isWhiteSpace c = false.
Proof.
  induction s as [|c s IH]; [discriminate|]. simpl.
  destruct (isWhiteSpace c) eqn:Hc; [exact IH|]. intros _. by exists c, s.
Qed.

(** [trim] gives the empty string only for a blank string. *)
Lemma trim_nonblank (s : string) : blank s = false → trim s ≠ "".
Proof.
  intros (c & s' & Hs & Hc)%trimStart_nonblank. unfold trim.
  rewrite Hs, (trimEnd_cons _ _ Hc). discriminate.
Qed.

(** ** [formatChapter] *)

Section Chapter.

Import Stdlib.Strings.Ascii.

Lemma formatChapter_Some (chapter : option string) (s : string) :
  Page.formatChapter chapter = Some s →
  ∃ c, chapter = Some c
       ∧ s = Page.truncateChapter (Page.numberChapter (Page.cleanChapter c)).
Proof.
  unfold Page.formatChapter. destruct chapter as [c|]; [|discriminate].
  destruct (String.eqb c ""); [discriminate|]. intros [= <-]. by eexists.
Qed.

(** X12. A formatted chapter label is never longer than 60 code units. *)
Theorem formatChapter_length (chapter : option string) (s : string) :
  Page.formatChapter chapter = Some s → String.length s ≤ 60.
Proof.
  intros (c & _ & ->)%formatChapter_Some. unfold Page.truncateChapter.
  destruct (Nat.ltb 60 (String.length _)) eqn:Hlong.
  - rewrite length_append.
    pose proof (length_substring 57 (Page.numberChapter (Page.cleanChapter c))).
    simpl. lia.
  - apply Nat.ltb_ge in Hlong. exact Hlong.
Qed.

Lemma formatChapter_length_long :
  String.length
    "The Psychology of the Child Archetype and the Psychologic..." ≤ 60.
Proof.
  apply (formatChapter_length
           (Some "The Psychology of the Child Archetype and the Psychological Aspects of the Kore")).
  reflexivity.
Defined.

(** X13. [formatChapter] gives no label exactly for a null or an empty
    chapter. A chapter of white space only is not empty: its label is the
    empty string, not null. *)
Theorem formatChapter_null (chapter : option string) :
  (Page.formatChapter chapter = None ↔ chapter = None ∨ chapter = Some "")
  ∧ (∀ s, chapter = Some s → s ≠ "" → blank s = true →
          Page.formatChapter chapter = Some "").
Proof.
  split; [split|].
  - unfold Page.formatChapter. destruct chapter as [c|]; [|by left].
    destruct (String.eqb_spec c ""); [right; by subst|discriminate].
  - by intros [-> | ->].
  - intros s -> Hs Hblank. unfold Page.formatChapter, Page.cleanChapter.
    destruct (String.eqb_spec s ""); [done|].
    by rewrite (trim_blank _ Hblank).
Qed.

Lemma formatChapter_null_spaces :
  Page.formatChapter (Some "   ") = Some "".
Proof.
  destruct (formatChapter_null (Some "   ")) as [_ Hblank].
  by apply (Hblank "   ").
Defined.

Lemma plainSpaces_append (a b : string) :
  Page.plainSpaces (a +:+ b) = Page.plainSpaces a && Page.plainSpaces b.
Proof.
  induction a as [|x a IH]; [reflexivity|].
  change (String x a +:+ b) with (String x (a +:+ b)). simpl.
  rewrite IH. by rewrite andb_assoc.
Qed.

Lemma plainSpaces_collapseFrom (inRun : bool) (s : string) :
  Page.plainSpaces (Page.collapseFrom inRun s) = true.
Proof.
  revert inRun. induction s as [|c s IH]; intros inRun; [reflexivity|].
  simpl. destruct (isWhiteSpace c) eqn:Hc.
  - destruct inRun; [apply IH|]. simpl. apply IH.
  - simpl. rewrite Hc. simpl. apply IH.
Qed.

Lemma plainSpaces_tail (c : ascii) (s : string) :
  Page.plainSpaces (String c s) = true → Page.plainSpaces s = true.
Proof. simpl. by intros [_ ?]%andb_prop. Qed.

Lemma plainSpaces_trimStart (s : string) :
  Page.plainSpaces s = true → Page.plainSpaces (trimStart s) = true.
Proof.
  induction s as [|c s IH]; [done|]. intros Hs. simpl.
  destruct (isWhiteSpace c); [|exact Hs].
  apply IH. by apply plainSpaces_tail in Hs.
Qed.

Lemma plainSpaces_substring (n : nat) (s : string) :
  Page.plainSpaces s = true →
  Page.plainSpaces (String.substring 0 n s) = true.
Proof.
  revert s. induction n as [|n IH]; intros [|c s]; simpl; try done.
  intros [Hc Hs]%andb_prop. rewrite Hc. simpl. by apply IH.
Qed.

Lemma plainSpaces_matchLiteral (lit s rest : string) :
  Page.matchLiteral lit s = Some rest →
  Page.plainSpaces s = true → Page.plainSpaces rest = true.
Proof.
  revert s. induction lit as [|a lit IH]; intros s.
  { destruct s; by intros [= <-]. }
  destruct s as [|c s]; [discriminate|]. simpl.
  destruct (Ascii.eqb _ _); [|discriminate].
  intros Hrest [_ Hs]%andb_prop. by apply (IH s).
Qed.

Lemma plainSpaces_matchPrefix (alts : list Page.Alternative) (s rest : string) :
  Page.matchPrefix alts s = Some rest →
  Page.plainSpaces s = true → Page.plainSpaces rest = true.
Proof.
  intros Hmatch Hs. induction alts as [|a alts IH]; [discriminate|].
  simpl in Hmatch.
  destruct (Page.matchAlternative a s) as [r|] eqn:Ha; [|by apply IH].
  injection Hmatch as <-. apply plainSpaces_trimStart.
  destruct a as [lit|lit]; simpl in Ha.
  - by apply (plainSpaces_matchLiteral lit s).
  - destruct (Page.matchLiteral lit s) as [r'|] eqn:Hlit; [|discriminate].
    apply plainSpaces_matchLiteral in Hlit; [|done].
    destruct r' as [|c r']; [by injection Ha as <-|].
    destruct (Ascii.eqb_spec c "."%char) as [->|Hne].
    + injection Ha as <-. by apply plainSpaces_tail in Hlit.
    + assert (Some (String c r') = Some r) as [= <-]; [|done].
      rewrite <- Ha. clear -Hne.
      destruct c as [[] [] [] [] [] [] [] []]; try reflexivity. done.
Qed.

Lemma plainSpaces_replacePrefix
  (alts : list Page.Alternative) (by_ s : string) :
  Page.plainSpaces by_ = true → Page.plainSpaces s = true →
  Page.plainSpaces (Page.replacePrefix alts by_ s) = true.
Proof.
  intros Hby Hs. unfold Page.replacePrefix.
  destruct (Page.matchPrefix alts s) as [rest|] eqn:Hmatch; [|done].
  rewrite plainSpaces_append, Hby.
  by rewrite (plainSpaces_matchPrefix _ _ _ Hmatch Hs).
Qed.

(** X14. In a formatted chapter label the only white space is the space
    character: tabs, line breaks and no-break spaces of the chapter are
    gone. *)
Theorem formatChapter_plain_spaces (chapter : option string) (s : string) :
  Page.formatChapter chapter = Some s → Page.plainSpaces s = true.
Proof.
  intros (c & _ & ->)%formatChapter_Some.
  assert (Page.plainSpaces (Page.cleanChapter c) = true) as Hclean.
  { unfold Page.cleanChapter.
    do 2 (apply plainSpaces_replacePrefix; [reflexivity|]).
    apply plainSpaces_collapseFrom. }
  assert (Page.plainSpaces (Page.numberChapter (Page.cleanChapter c)) = true)
    as Hnum.
  { unfold Page.numberChapter. destruct (Page.isNumber _); [|done].
    by rewrite plainSpaces_append, Hclean. }
  unfold Page.truncateChapter. destruct (Nat.ltb 60 _); [|done].
  rewrite plainSpaces_append, plainSpaces_substring; done.
Qed.

Lemma formatChapter_plain_spaces_tab :
  Page.plainSpaces "Ch. 5: The Shadow" = true.
Proof.
  apply (formatChapter_plain_spaces
           (Some ("Chapter" +:+ String (ascii_of_nat 9) "5:"
                  +:+ String (ascii_of_nat 160) "The" +:+ nl +:+ "Shadow"))).
  vm_compute. reflexivity.
Defined.

Lemma digit_not_space (c : ascii) :
  Page.isDigit c = true → isWhiteSpace c = false.
Proof.
  destruct c as [[] [] [] [] [] [] [] []]; intros H; vm_compute in H;
    try discriminate H; reflexivity.
Qed.

Lemma digit_no_prefix (c : ascii) (s : string) :
  Page.isDigit c = true →
  Page.matchPrefix Page.chapterPrefixes (String c s) = None
  ∧ Page.matchPrefix Page.partPrefixes (String c s) = None.
Proof.
  destruct c as [[] [] [] [] [] [] [] []]; intros H; vm_compute in H;
    try discriminate H; split; reflexivity.
Qed.

Lemma digits_trimEnd (s : string) :
  Page.allDigits s = true → trimEnd s = s.
Proof.
  induction s as [|c s IH]; [reflexivity|]. simpl.
  intros [Hc Hs]%andb_prop.
  rewrite trimEnd_cons by (by apply digit_not_space). by rewrite IH.
Qed.

Lemma digits_collapse (s : string) :
  Page.allDigits s = true → Page.collapseFrom false s = s.
Proof.
  induction s as [|c s IH]; [reflexivity|]. simpl.
  intros [Hc Hs]%andb_prop.
  rewrite (digit_not_space _ Hc). by rewrite IH.
Qed.

(** X15. A chapter that is just a number (at most 56 digits) is labelled
    ["Ch. "] followed by the number. *)
Theorem formatChapter_number (s : string) :
  s ≠ "" → Page.allDigits s = true → String.length s ≤ 56 →
  Page.formatChapter (Some s) = Some ("Ch. " +:+ s).
Proof.
  intros Hne Hdigits Hshort. unfold Page.formatChapter.
  destruct (String.eqb_spec s ""); [done|]. f_equal.
  assert (Page.cleanChapter s = s) as ->.
  { unfold Page.cleanChapter.
    assert (trim s = s) as ->.
    { unfold trim. destruct s as [|c s]; [done|].
      pose proof Hdigits as [Hc _]%andb_prop. simpl.
      rewrite (digit_not_space _ Hc). by apply digits_trimEnd. }
    unfold Page.collapseWhiteSpace. rewrite (digits_collapse _ Hdigits).
    destruct s as [|c s]; [done|].
    pose proof Hdigits as [Hc _]%andb_prop.
    destruct (digit_no_prefix c s Hc) as [Hchapter Hpart].
    unfold Page.replacePrefix. by rewrite Hchapter, Hpart. }
  unfold Page.numberChapter, Page.isNumber. rewrite Hdigits.
  destruct (String.eqb_spec s ""); [done|]. cbn [negb andb].
  unfold Page.truncateChapter.
  assert (Nat.ltb 60 (String.length ("Ch. " +:+ s)) = false) as ->.
  { apply Nat.ltb_ge. rewrite length_append. simpl. lia. }
  reflexivity.
Qed.

Lemma formatChapter_number_12 :
  Page.formatChapter (Some "12") = Some "Ch. 12".
Proof. apply (formatChapter_number "12"); [done | reflexivity | simpl; lia]. Defined.

(** X16. Every chapter that starts with the letters c and h, in either
    case, is given a label that starts with ["Ch. "], whatever word those
    letters begin: the pattern does not ask for the end of the word, so a
    chapter "Christ, a Symbol of the Self" is labelled
    "Ch. rist, a Symbol of the Self". *)
Theorem formatChapter_ch_prefix (c1 c2 : ascii) (rest : string) :
  c1 = "c"%char ∨ c1 = "C"%char →
  c2 = "h"%char ∨ c2 = "H"%char →
  ∃ label,
    Page.formatChapter (Some (String c1 (String c2 rest)))
    = Some ("Ch. " +:+ label).
Proof.
  intros H1 H2.
  assert (isWhiteSpace c1 = false ∧ isWhiteSpace c2 = false) as [Hw1 Hw2].
  { destruct H1 as [-> | ->], H2 as [-> | ->]; by split. }
  unfold Page.formatChapter.
  assert (String.eqb (String c1 (String c2 rest)) "" = false) as ->.
  { by destruct H1 as [-> | ->]. }
  assert (∃ after, Page.cleanChapter (String c1 (String c2 rest))
                   = String "C" (String "h" (String "." (String " " after))))
    as [after ->].
  { unfold Page.cleanChapter.
    assert (trim (String c1 (String c2 rest))
            = String c1 (String c2 (trimEnd rest))) as ->.
    { unfold trim. simpl. rewrite Hw1. by rewrite !trimEnd_cons. }
    unfold Page.collapseWhiteSpace. simpl Page.collapseFrom.
    rewrite Hw1, Hw2.
    set (r := Page.collapseFrom false (trimEnd rest)).
    assert (∃ after, Page.matchPrefix Page.chapterPrefixes
                       (String c1 (String c2 r)) = Some after) as [after Hm].
    { unfold Page.chapterPrefixes. cbn [Page.matchPrefix].
      destruct (Page.matchAlternative (Page.Literal "Chapter")
                  (String c1 (String c2 r))); [by eexists|].
      destruct (Page.matchAlternative (Page.Literal "CHAPTER")
                  (String c1 (String c2 r))); [by eexists|].
      assert (Page.matchLiteral "Ch" (String c1 (String c2 r)) = Some r)
        as Hch.
      { destruct H1 as [-> | ->], H2 as [-> | ->]; reflexivity. }
      unfold Page.matchAlternative at 1. rewrite Hch.
      destruct r as [|c r']; [by eexists|].
      destruct c as [[] [] [] [] [] [] [] []]; by eexists. }
    exists after. unfold Page.replacePrefix at 2. rewrite Hm. reflexivity. }
  change (Page.numberChapter (String "C" ?s)) with (String "C" s).
  unfold Page.truncateChapter. destruct (Nat.ltb 60 _).
  - exists (String.substring 0 53 after +:+ "..."). reflexivity.
  - by exists after.
Qed.

Lemma formatChapter_ch_prefix_Christ :
  ∃ label,
    Page.formatChapter (Some "Christ, a Symbol of the Self")
    = Some ("Ch. " +:+ label).
Proof.
  apply (formatChapter_ch_prefix "C" "h" "rist, a Symbol of the Self");
    [by right | by left].
Defined.

End Chapter.

(** ** [extractRelatedConcepts] *)

Lemma dedupeFrom_subseteq (seen l : list string) :
  Page.dedupeFrom seen l ⊆ l.
Proof.
  revert seen. induction l as [|x l IH]; intros seen; [done|]. simpl.
  destruct (bool_decide (x ∈ seen)); intros y Hy.
  - apply elem_of_cons. right. by apply (IH seen).
  - apply elem_of_cons in Hy as [-> | Hy]; apply elem_of_cons; [by left|].
    right. by apply (IH (x :: seen)).
Qed.

Lemma dedupeFrom_fresh (seen l : list string) (x : string) :
  x ∈ Page.dedupeFrom seen l → x ∉ seen.
Proof.
  revert seen. induction l as [|y l IH]; intros seen; simpl.
  - by intros ?%elem_of_nil.
  - destruct (bool_decide (y ∈ seen)) eqn:Hseen; [apply IH|].
    apply bool_decide_eq_false in Hseen.
    intros [-> | Hin]%elem_of_cons; [done|].
    apply IH in Hin. intros Hseen'. apply Hin, elem_of_cons. by right.
Qed.

Lemma dedupeFrom_NoDup (seen l : list string) :
  NoDup (Page.dedupeFrom seen l).
Proof.
  revert seen. induction l as [|y l IH]; intros seen; simpl.
  - constructor.
  - destruct (bool_decide (y ∈ seen)); [apply IH|].
    constructor; [|apply IH].
    intros Hin%dedupeFrom_fresh. apply Hin, elem_of_cons. by left.
Qed.

Lemma length_capitalize (c : string) :
  String.length (Page.capitalize c) = String.length c.
Proof. by destruct c. Qed.

Lemma NoDup_fmap_inj {A B} (f : A → B) (l : list A) (x y : A) :
  NoDup (f <$> l) → x ∈ l → y ∈ l → f x = f y → x = y.
Proof.
  induction l as [|a l IH]; [by intros _ ?%elem_of_nil|].
  rewrite fmap_cons, NoDup_cons.
  intros [Ha Hl] [-> | Hx]%elem_of_cons [-> | Hy]%elem_of_cons Heq.
  - reflexivity.
  - exfalso. apply Ha. rewrite Heq. by apply list_elem_of_fmap_2.
  - exfalso. apply Ha. rewrite <- Heq. by apply list_elem_of_fmap_2.
  - by apply IH.
Qed.

Lemma capitalize_concepts_NoDup : NoDup (Page.capitalize <$> Page.concepts).
Proof. apply (bool_decide_unpack _). by vm_compute. Qed.

Section Concepts.

Variable shuffle : list string → list string.

(** The sort with a random comparison leaves the elements it was given, in
    some order. *)
Hypothesis shuffle_permutation : ∀ l, shuffle l ≡ₚ l.

Lemma extractRelatedConcepts_from (text tag : string) :
  tag ∈ Page.extractRelatedConcepts shuffle text →
  ∃ c, tag = Page.capitalize c ∧ c ∈ Page.concepts
       ∧ Page.mentioned text c = true.
Proof using shuffle_permutation.
  unfold Page.extractRelatedConcepts.
  intros (c & -> & Hc)%list_elem_of_fmap.
  exists c. split; [done|].
  apply subseteq_take in Hc. rewrite shuffle_permutation in Hc.
  apply dedupeFrom_subseteq in Hc.
  apply list_elem_of_In, filter_In in Hc as [Hc Hm].
  split; [by apply list_elem_of_In | done].
Qed.

(** X17. The related concepts shown for an answer are at most four, all
    different; each is a concept of the list with its first letter in
    upper case, it has more than four letters and occurs in the answer
    once the answer is put in lower case. So "Self" and "Ego" are never
    shown, although the list holds them. *)
Theorem extractRelatedConcepts_tags (text : string) :
  length (Page.extractRelatedConcepts shuffle text) ≤ 4
  ∧ NoDup (Page.extractRelatedConcepts shuffle text)
  ∧ (∀ tag, tag ∈ Page.extractRelatedConcepts shuffle text →
       ∃ c, tag = Page.capitalize c ∧ c ∈ Page.concepts
            ∧ 4 < String.length c
            ∧ Page.includes (Page.toLowerCase text) c = true)
  ∧ ("Self" ∉ Page.extractRelatedConcepts shuffle text)
  ∧ ("Ego" ∉ Page.extractRelatedConcepts shuffle text).
Proof using shuffle_permutation.
  assert (∀ tag, tag ∈ Page.extractRelatedConcepts shuffle text →
            ∃ c, tag = Page.capitalize c ∧ c ∈ Page.concepts
                 ∧ 4 < String.length c
                 ∧ Page.includes (Page.toLowerCase text) c = true) as Htags.
  { intros tag (c & -> & Hc & Hm)%extractRelatedConcepts_from.
    exists c. unfold Page.mentioned in Hm.
    apply andb_prop in Hm as [Hin Hlen]. apply Nat.ltb_lt in Hlen. done. }
  split; [|split; [|split; [exact Htags|split]]].
  - unfold Page.extractRelatedConcepts.
    rewrite length_fmap, length_take. lia.
  - unfold Page.extractRelatedConcepts.
    apply NoDup_fmap_2_strong.
    + intros x y Hx%subseteq_take Hy%subseteq_take.
      rewrite shuffle_permutation in Hx, Hy.
      apply dedupeFrom_subseteq, list_elem_of_In, filter_In in Hx as [Hx _].
      apply dedupeFrom_subseteq, list_elem_of_In, filter_In in Hy as [Hy _].
      apply (NoDup_fmap_inj _ Page.concepts);
        [apply capitalize_concepts_NoDup | by apply list_elem_of_In..].
    + eapply sublist_NoDup; [|apply sublist_take].
      rewrite shuffle_permutation. apply dedupeFrom_NoDup.
  - intros (c & Heq & _ & Hlen & _)%Htags.
    apply (f_equal String.length) in Heq.
    rewrite length_capitalize in Heq. simpl in Heq. lia.
  - intros (c & Heq & _ & Hlen & _)%Htags.
    apply (f_equal String.length) in Heq.
    rewrite length_capitalize in Heq. simpl in Heq. lia.
Qed.

End Concepts.

Lemma extractRelatedConcepts_tags_reverse :
  length (Page.extractRelatedConcepts SamplePage.shuffle
            "The ego meets its shadow in dreams; the Self is a symbol.") ≤ 4
  ∧ ("Self" ∉ Page.extractRelatedConcepts SamplePage.shuffle
                "The ego meets its shadow in dreams; the Self is a symbol.").
Proof.
  pose proof (extractRelatedConcepts_tags SamplePage.shuffle
                (λ l, reverse_Permutation l)
                "The ego meets its shadow in dreams; the Self is a symbol.")
    as (Hlen & _ & _ & Hself & _).
  done.
Defined.

(** ** [handleExplore] *)

Section Explore.

Variable shuffle : list string → list string.
Variable Number_toString : float → string.
Variable now : N.
Variable svc : Services.

(** X18. The handler does nothing for a blank query, and nothing while a
    request is loading: no call is made and the state stays as it is, the
    text typed in the input included. *)
Theorem handleExplore_ignored (query : string) (st : Page.State) :
  blank query = true ∨ Page.isLoading st = true →
  Page.handleExplore shuffle Number_toString now svc query st = ([], st).
Proof.
  intros Hguard. unfold Page.handleExplore.
  destruct Hguard as [Hblank | ->].
  - by rewrite (trim_blank _ Hblank).
  - by rewrite orb_true_r.
Qed.

Lemma handleExplore_run (query : string) (st : Page.State) :
  trim query ≠ "" → Page.isLoading st = false →
  Page.handleExplore shuffle Number_toString now svc query st
  = let st1 := {| Page.explorations := Page.explorations st;
                  Page.input := "";
                  Page.isLoading := true;
                  Page.expandedId := Page.expandedId st |} in
    let run := POST Number_toString svc (Chat {| messages := []; query := query |}) in
    let st2 := match run.2 with
               | Return r => default st1 (Page.received shuffle now query r st1)
               | Throw _ => st1
               end in
    (run.1, {| Page.explorations := Page.explorations st2;
               Page.input := Page.input st2;
               Page.isLoading := false;
               Page.expandedId := Page.expandedId st2 |}).
Proof.
  intros Hquery Hidle. unfold Page.handleExplore. rewrite Hidle.
  assert (truthy (JsString (trim query)) = true) as ->.
  { simpl. by destruct (String.eqb_spec (trim query) ""). }
  simpl. by destruct (POST _ _ _).
Qed.


(** X20. The two ends of a submitted query. When the route answers with a
    success, the new exploration holds the query, the answer, the raw
    sources of the response and the concepts found in the answer, its id
    is the time of arrival, and it is the expanded one. When the route
    answers with the generic error, the explorations and the expanded id
    are as before, and the input has been emptied all the same. *)
Theorem handleExplore_outcomes (query : string) (st : Page.State) :
  blank query = false → Page.isLoading st = false →
  (∀ answer sources,
     outcome (POST Number_toString svc (Chat {| messages := []; query := query |}))
     = Return (successResponse Number_toString answer sources) →
     (Page.handleExplore shuffle Number_toString now svc query st).2
     = {| Page.explorations :=
            {| Page.id := NilEmpty.string_of_uint (N.to_uint now);
               Page.asked := query;
               Page.response := answer;
               Page.sources := JArray (json_of_source <$> sources);
               Page.relatedConcepts :=
                 Page.extractRelatedConcepts shuffle answer |}
            :: Page.explorations st;
          Page.input := "";
          Page.isLoading := false;
          Page.expandedId := Some (NilEmpty.string_of_uint (N.to_uint now)) |})
  ∧ (outcome (POST Number_toString svc (Chat {| messages := []; query := query |}))
     = Return genericError →
     (Page.handleExplore shuffle Number_toString now svc query st).2
     = {| Page.explorations := Page.explorations st;
          Page.input := "";
          Page.isLoading := false;
          Page.expandedId := Page.expandedId st |}).
Proof.
  intros Hquery%trim_nonblank Hidle.
  rewrite (handleExplore_run _ _ Hquery Hidle).
  cbn zeta. unfold outcome. split.
  - intros answer sources ->. reflexivity.
  - intros ->. reflexivity.
Qed.

End Explore.

Lemma handleExplore_ignored_loading :
  Page.handleExplore SamplePage.shuffle Sample.Number_toString
    1700000000000%N Sample.healthy "What is the shadow?"
    {| Page.explorations := []; Page.input := "What is the shadow?";
       Page.isLoading := true; Page.expandedId := None |}
  = ([], {| Page.explorations := []; Page.input := "What is the shadow?";
            Page.isLoading := true; Page.expandedId := None |}).
Proof.
  apply (handleExplore_ignored SamplePage.shuffle Sample.Number_toString
           1700000000000%N Sample.healthy). by right.
Defined.


Lemma handleExplore_outcomes_healthy :
  Page.expandedId
    (Page.handleExplore SamplePage.shuffle Sample.Number_toString
       1700000000000%N Sample.healthy "What is the shadow?"
       SamplePage.fresh).2 = Some "1700000000000".
Proof.
  destruct (handleExplore_outcomes SamplePage.shuffle Sample.Number_toString
              1700000000000%N Sample.healthy "What is the shadow?"
              SamplePage.fresh) as [Hok _]; [reflexivity | reflexivity |].
  rewrite (Hok "The shadow is what we hide." (take 3 Sample.six)).
  - reflexivity.
  - vm_compute. reflexivity.
Defined.
